(** * Noughts and crosses (game.py): a shallow embedding and its properties

    The board of [game.py] is a Python list of three lists of three
    one-character strings.  It is embedded as [list (list string)], read with
    stdpp's list lookup and written with stdpp's list insert; an index out of
    range raises [IndexError] as in Python.  The three rows are three
    distinct lists, as [main] builds them, so writing a cell changes one row
    only.  The [print] and [draw_board] calls only write to the terminal:
    they influence neither the board, nor the control flow, nor any returned
    value, and are left out.  Standard input is the list of lines still to be
    read, the random generator is the stream of numbers it will draw. *)

From Stdlib Require Import ZArith List String Ascii Bool Lia Permutation Sorted.
From stdpp Require Import base option list strings pretty.

Local Open Scope string_scope.

(** ** Results of Python computations *)

Inductive exn : Type :=
| IndexError          (* subscript out of range *)
| EOFError            (* [input()] at end of input *)
| AttributeError      (* [.get] on something that is not a dict *)
| TypeError           (* [+] on operands that cannot be added *)
| UnicodeDecodeError  (* reading a file whose bytes are not text *)
| RecursionError      (* [json.load] on brackets nested too deep *)
| OSError.            (* [open] on a path that cannot be opened *)

Inductive result (A : Type) : Type :=
| Ret (a : A)
| Raise (e : exn)
| OutOfFuel.

Arguments Ret {A} a.
Arguments Raise {A} e.
Arguments OutOfFuel {A}.

Definition bind {A B : Type} (m : result A) (k : A -> result B) : result B :=
  match m with
  | Ret a => k a
  | Raise e => Raise e
  | OutOfFuel => OutOfFuel
  end.

Notation "x <- m ;; k" := (bind m (fun x => k))
  (at level 100, m at next level, right associativity).

(** [for x in xs: if test(x): return True] followed by falling through. *)
Fixpoint any_in (xs : list nat) (test : nat -> result bool) : result bool :=
  match xs with
  | [] => Ret false
  | x :: rest =>
      hit <- test x ;;
      if hit then Ret true else any_in rest test
  end.

(** [for x in xs: body(x)] threading the mutated state [s]. *)
Fixpoint for_in {S : Type} (xs : list nat) (body : nat -> S -> result S) (s : S)
  : result S :=
  match xs with
  | [] => Ret s
  | x :: rest => s' <- body x s ;; for_in rest body s'
  end.

(** [range(3)] *)
Definition range3 : list nat := seq 0 3.

(** ** The board *)

Definition board : Type := list (list string).

Definition EMPTY : string := " ".

(** [board[row][col]] *)
Definition get_cell (b : board) (row col : nat) : result string :=
  match b !! row with
  | None => Raise IndexError
  | Some r =>
      match r !! col with
      | None => Raise IndexError
      | Some s => Ret s
      end
  end.

(** [board[row][col] = mark] *)
Definition set_cell (b : board) (row col : nat) (mark : string) : result board :=
  match b !! row with
  | None => Raise IndexError
  | Some r =>
      match r !! col with
      | None => Raise IndexError
      | Some _ => Ret (<[row := <[col := mark]> r]> b)
      end
  end.

(** [initialise_board] *)
Definition initialise_board (b : board) : result board :=
  for_in range3 (fun row b =>
    for_in range3 (fun col b => set_cell b row col EMPTY) b) b.

(** The chained comparison [board[r1][c1] == board[r2][c2] == board[r3][c3] == mark]:
    Python evaluates the operands left to right and stops at the first
    comparison that is false. *)
Definition chain3 (b : board) (p1 p2 p3 : nat * nat) (mark : string) : result bool :=
  x <- get_cell b (fst p1) (snd p1) ;;
  y <- get_cell b (fst p2) (snd p2) ;;
  if negb (String.eqb x y) then Ret false else
  z <- get_cell b (fst p3) (snd p3) ;;
  if negb (String.eqb y z) then Ret false else
  Ret (String.eqb z mark).

(** [check_for_win] *)
Definition check_for_win (b : board) (mark : string) : result bool :=
  in_row <- any_in range3 (fun row => chain3 b (row, 0) (row, 1) (row, 2) mark) ;;
  if in_row then Ret true else
  in_col <- any_in range3 (fun col => chain3 b (0, col) (1, col) (2, col) mark) ;;
  if in_col then Ret true else
  d1 <- chain3 b (0, 0) (1, 1) (2, 2) mark ;;
  if d1 then Ret true else
  d2 <- chain3 b (0, 2) (1, 1) (2, 0) mark ;;
  if d2 then Ret true else
  Ret false.

(** [check_for_draw]: [False] is returned at the first empty cell met. *)
Definition check_for_draw (b : board) : result bool :=
  found <- any_in range3 (fun row =>
             any_in range3 (fun col =>
               s <- get_cell b row col ;; Ret (String.eqb s EMPTY))) ;;
  if found then Ret false else Ret true.

(** The list [empty_cells] built by the two loops of [choose_computer_move]. *)
Definition empty_cells (b : board) : result (list (nat * nat)) :=
  for_in range3 (fun row cells =>
    for_in range3 (fun col cells =>
      s <- get_cell b row col ;;
      if String.eqb s EMPTY then Ret (cells ++ [(row, col)])%list else Ret cells)
      cells) [].

(** [choose_computer_move]; [k] is the number drawn by the generator, of which
    [random.choice] keeps an index into [empty_cells].  [None] stands for the
    pair [(None, None)]. *)
Definition choose_computer_move (b : board) (k : nat) : result (option (nat * nat)) :=
  cells <- empty_cells b ;;
  match cells with
  | [] => Ret None
  | c0 :: _ => Ret (Some (nth (k mod length cells) cells c0))
  end.

(** ** One round *)

(** A line typed by the player, as [int(input(...))] sees it: [Some n] when
    the text denotes the integer [n], [None] when [int] raises [ValueError]. *)
Definition input_line : Type := option Z.

(** [get_player_move]: every pass through the loop reads one line; at end of
    input [input] raises [EOFError], which the [except ValueError] clause
    does not catch.  The rest of the input is returned with the move. *)
Fixpoint get_player_move (b : board) (stdin : list input_line)
  : result (nat * nat * list input_line) :=
  match stdin with
  | [] => Raise EOFError
  | None :: rest => get_player_move b rest
  | Some move :: rest =>
      if (move <? 1)%Z || (move >? 9)%Z then get_player_move b rest else
      let row := Z.to_nat ((move - 1) / 3) in
      let col := Z.to_nat ((move - 1) mod 3) in
      s <- get_cell b row col ;;
      if String.eqb s EMPTY then Ret (row, col, rest)
      else get_player_move b rest
  end.

(** What a part of the loop body does to the loop: leave [play_game] with a
    value, or go on. *)
Inductive flow : Type :=
| Return (score : Z)
| Continue.

(** The first half of the loop body of [play_game] ("Player's turn"). *)
Definition player_turn (b : board) (stdin : list input_line)
  : result (flow * board * list input_line) :=
  mv <- get_player_move b stdin ;;
  let '(row, col, stdin) := mv in
  b <- set_cell b row col "X" ;;
  won <- check_for_win b "X" ;;
  if won then Ret (Return 1, b, stdin) else
  full <- check_for_draw b ;;
  if full then Ret (Return 0, b, stdin) else
  Ret (Continue, b, stdin).

(** The second half of the loop body ("Computer's turn"). *)
Definition computer_turn (b : board) (k : nat) : result (flow * board) :=
  mv <- choose_computer_move b k ;;
  match mv with
  | Some (row, col) =>
      b <- set_cell b row col "O" ;;
      won <- check_for_win b "O" ;;
      if won then Ret (Return (-1), b) else
      full <- check_for_draw b ;;
      if full then Ret (Return 0, b) else
      Ret (Continue, b)
  | None => Ret (Continue, b)
  end.

(** The [while True] loop of [play_game]; [rnd] is the stream of numbers the
    generator draws from now on. *)
Fixpoint play_loop (fuel : nat) (b : board) (stdin : list input_line) (rnd : nat -> nat)
  : result (Z * board * list input_line) :=
  match fuel with
  | O => OutOfFuel
  | S fuel =>
      r <- player_turn b stdin ;;
      let '(fl, b, stdin) := r in
      match fl with
      | Return score => Ret (score, b, stdin)
      | Continue =>
          r <- computer_turn b (rnd 0) ;;
          let '(fl, b) := r in
          match fl with
          | Return score => Ret (score, b, stdin)
          | Continue => play_loop fuel b stdin (fun n => rnd (S n))
          end
      end
  end.

(** [play_game]: the value returned, the board as the round leaves it (the
    caller's list is mutated in place) and the input not yet read. *)
Definition play_game (fuel : nat) (b : board) (stdin : list input_line) (rnd : nat -> nat)
  : result (Z * board * list input_line) :=
  b <- initialise_board b ;;
  play_loop fuel b stdin rnd.

(** ** The leaderboard *)

(** A Python dictionary with string keys is the list of its items in
    insertion order, the keys being distinct.  [dict_lookup] is what
    [d.get(name)] finds; [dict_store] is [d[name] = v], which keeps the place
    of a key that is present and puts a new key last. *)
Fixpoint dict_lookup {V : Type} (name : string) (items : list (string * V))
  : option V :=
  match items with
  | [] => None
  | (key, v) :: rest =>
      if String.eqb key name then Some v else dict_lookup name rest
  end.

Fixpoint dict_store {V : Type} (name : string) (v : V) (items : list (string * V))
  : list (string * V) :=
  match items with
  | [] => [(name, v)]
  | (key, old) :: rest =>
      if String.eqb key name then (key, v) :: rest
      else (key, old) :: dict_store name v rest
  end.

Section Store.

(** Python's floats and the sum [float + int] are those of the host. *)
Variable pyfloat : Type.
Variable float_add_int : pyfloat -> Z -> result pyfloat.

(** What [json.load] can return; an object is a dictionary, with the order
    its members have in the file. *)
Local Unset Elimination Schemes.
Inductive json : Type :=
| JNull
| JBool (b : bool)
| JInt (z : Z)
| JFloat (f : pyfloat)
| JString (s : string)
| JArray (items : list json)
| JObject (members : list (string * json)).
Local Set Elimination Schemes.

(** What [leaderboard.txt] holds, up to what [open] and [json.load] make of
    it.  [json.dump] writes a text that parses back to the value dumped,
    members in the same order. *)
Inductive text : Type :=
| Parses (v : json)  (* [json.load] returns [v] *)
| Unparsable         (* [json.load] raises [JSONDecodeError] *)
| Undecodable        (* bytes that are no text in the encoding of [open]:
                        reading raises [UnicodeDecodeError] *)
| TooDeep            (* brackets nested beyond the recursion limit:
                        [json.load] raises [RecursionError] *)
| Unreadable.        (* the path exists and cannot be opened, a directory
                        for one: [open] raises [OSError] *)

(** The file system, as far as [leaderboard.txt] goes: [None] when
    [os.path.exists] is false. *)
Definition storage : Type := option text.

(** [load_scores]: only [json.JSONDecodeError] is caught. *)
Definition load_scores (fs : storage) : result json :=
  let leaders := JObject [] in
  match fs with
  | Some file =>
      match file with
      | Parses v => Ret v
      | Unparsable => Ret (JObject [])
      | Undecodable => Raise UnicodeDecodeError
      | TooDeep => Raise RecursionError
      | Unreadable => Raise OSError
      end
  | None => Ret leaders
  end.

(** [leaders.get(name, 0)] *)
Definition dict_get (leaders : json) (name : string) : result json :=
  match leaders with
  | JObject members => Ret (default (JInt 0) (dict_lookup name members))
  | _ => Raise AttributeError
  end.

(** [old + score] for an integer [score] *)
Definition add_score (old : json) (score : Z) : result json :=
  match old with
  | JInt z => Ret (JInt (z + score))
  | JBool b => Ret (JInt (Z.b2z b + score))
  | JFloat f => f' <- float_add_int f score ;; Ret (JFloat f')
  | JNull | JString _ | JArray _ | JObject _ => Raise TypeError
  end.

(** [leaders[name] = v] *)
Definition dict_set (leaders : json) (name : string) (v : json) : result json :=
  match leaders with
  | JObject members => Ret (JObject (dict_store name v members))
  | _ => Raise TypeError
  end.

(** [save_score]: the name is the next line of input; the file is rewritten
    only after the new total has been computed. *)
Definition save_score (score : Z) (stdin : list string) (fs : storage)
  : result (storage * list string) :=
  match stdin with
  | [] => Raise EOFError
  | name :: stdin =>
      leaders <- load_scores fs ;;
      old <- dict_get leaders name ;;
      new <- add_score old score ;;
      leaders <- dict_set leaders name new ;;
      Ret (Some (Parses leaders), stdin)
  end.

End Store.

Arguments JNull {pyfloat}.
Arguments JBool {pyfloat} b.
Arguments JInt {pyfloat} z.
Arguments JFloat {pyfloat} f.
Arguments JString {pyfloat} s.
Arguments JArray {pyfloat} items.
Arguments JObject {pyfloat} members.
Arguments Parses {pyfloat} v.
Arguments Unparsable {pyfloat}.
Arguments Undecodable {pyfloat}.
Arguments TooDeep {pyfloat}.
Arguments Unreadable {pyfloat}.
Arguments load_scores {pyfloat} fs.
Arguments dict_get {pyfloat} leaders name.
Arguments dict_set {pyfloat} leaders name v.
Arguments add_score {pyfloat} float_add_int old score.
Arguments save_score {pyfloat} float_add_int score stdin fs.

(** The leaderboard of the data model, names with integer scores in the order
    of the file, as the value [json.load] returns for it. *)
Definition scores {pyfloat : Type} (m : list (string * Z)) : json pyfloat :=
  JObject (List.map (fun entry => (fst entry, JInt (snd entry))) m).

(** A host without floats, for examples. *)
Definition no_float_add (f : Empty_set) (z : Z) : result Empty_set := Ret f.

(** ** The menu *)

(** [str.lower] on a character and on a string.  Strings are sequences of
    bytes here, and only the capitals of ASCII are changed.  Python also
    lowers capitals outside ASCII, but it lowers no string to a digit, and
    to ["q"] only ["q"] and ["Q"]: the test made by [menu] and the value it
    returns are those of Python. *)
Definition lower_char (a : ascii) : ascii :=
  let n := nat_of_ascii a in
  if Nat.leb 65 n && Nat.leb n 90 then ascii_of_nat (n + 32) else a.

Fixpoint lower (s : string) : string :=
  match s with
  | EmptyString => EmptyString
  | String a s' => String (lower_char a) (lower s')
  end.

(** [menu]: the lines of the input are read until one is a choice; the choice
    is returned with the input not yet read. *)
Fixpoint menu (stdin : list string) : result (string * list string) :=
  match stdin with
  | [] => Raise EOFError
  | typed :: rest =>
      let choice := lower typed in
      if existsb (String.eqb choice) ["1"; "2"; "3"; "q"] then Ret (choice, rest)
      else menu rest
  end.

(** ** What is printed *)

(** The functions below only print; each is the list of the arguments of its
    calls of [print], in order. *)

Definition newline : string := String (ascii_of_nat 10) "".

(** ["| " + " | ".join(row) + " |"] *)
Definition row_line (row : list string) : string :=
  "| " ++ String.concat " | " row ++ " |".

(** [draw_board] *)
Definition draw_board (b : board) : list string :=
  ([newline; "+---+---+---+"]
   ++ flat_map (fun row => [row_line row; "+---+---+---+"]) b
   ++ [newline])%list.

(** [welcome] *)
Definition welcome (b : board) : list string :=
  (["Welcome to the Noughts and Crosses Game!"; "You are X and computer is O"]
   ++ draw_board b)%list.

(** [sorted(..., key=lambda x: x[1], reverse=True)] on the items of the
    leaderboard.  Python's sort is stable, with [reverse=True] too: the
    result is the arrangement of the items that is descending by score and
    keeps items of equal score in the order they had.  Inserting the items
    one by one, from the last to the first, each before the first item that
    does not beat it, computes that arrangement. *)
Fixpoint insert_by_score (x : string * Z) (l : list (string * Z))
  : list (string * Z) :=
  match l with
  | [] => [x]
  | y :: rest =>
      if (snd x <? snd y)%Z then y :: insert_by_score x rest else x :: l
  end.

Definition sorted_leaders (items : list (string * Z)) : list (string * Z) :=
  fold_right insert_by_score [] items.

(** [f"{name}: {score}"] *)
Definition entry_line (entry : string * Z) : string :=
  fst entry ++ ": " ++ pretty (snd entry).

(** [display_leaderboard] on a leaderboard whose scores are integers, given
    by [leaders.items()]: the entries in the order of the dictionary. *)
Definition display_leaderboard (items : list (string * Z)) : list string :=
  (((newline ++ "Leaderboard:")%string :: List.map entry_line (sorted_leaders items))
   ++ [newline])%list.

(** ** Specification-side notions *)

(** A board of the data model: three rows of three cells. *)
Definition is_grid (b : board) : Prop :=
  length b = 3 /\ Forall (fun row : list string => length row = 3) b.

(** The eight winning lines as the specification lists them: three rows,
    three columns, two diagonals. *)
Definition winning_lines : list (list (nat * nat)) :=
  [ [(0, 0); (0, 1); (0, 2)]; [(1, 0); (1, 1); (1, 2)]; [(2, 0); (2, 1); (2, 2)];
    [(0, 0); (1, 0); (2, 0)]; [(0, 1); (1, 1); (2, 1)]; [(0, 2); (1, 2); (2, 2)];
    [(0, 0); (1, 1); (2, 2)]; [(0, 2); (1, 1); (2, 0)] ].

(** Cell [p] of [b] holds [mark]. *)
Definition holds (b : board) (mark : string) (p : nat * nat) : bool :=
  match get_cell b (fst p) (snd p) with
  | Ret s => String.eqb s mark
  | _ => false
  end.

(** Every cell of the line [l] holds [mark]. *)
Definition line_full (b : board) (mark : string) (l : list (nat * nat)) : bool :=
  forallb (holds b mark) l.

(** The lines of [ls] checked one after the other, in the order of [ls]. *)
Definition some_line_full (ls : list (list (nat * nat))) (b : board) (mark : string)
  : bool :=
  existsb (line_full b mark) ls.

(** The nine coordinates, row by row. *)
Definition all_cells : list (nat * nat) := list_prod range3 range3.

(** How many of the nine cells are empty. *)
Definition n_empty (b : board) : nat :=
  length (List.filter (holds b EMPTY) all_cells).

(** What the two tests made after a move lead to: the mover's score when the
    mover has a line, a draw when the board is full, the next turn otherwise. *)
Definition verdict (won full : bool) (score : Z) : flow :=
  if won then Return score else if full then Return 0 else Continue.

(** The number the player types for cell [(r, c)]. *)
Definition cell_number (r c : nat) : Z := Z.of_nat (3 * r + c + 1).

(** The input still holds the number of every empty cell. *)
Definition covers (b : board) (stdin : list input_line) : Prop :=
  forall r c, get_cell b r c = Ret EMPTY -> In (Some (cell_number r c)) stdin.

(** Neither mark has a line. *)
Definition no_winner (b : board) : Prop :=
  check_for_win b "X" = Ret false /\ check_for_win b "O" = Ret false.

(** How a round may end: the score returned and the board it leaves. *)
Definition round_end (score : Z) (b : board) : Prop :=
  (score = 1%Z /\ check_for_win b "X" = Ret true /\
     check_for_win b "O" = Ret false) \/
  (score = (-1)%Z /\ check_for_win b "O" = Ret true /\
     check_for_win b "X" = Ret false) \/
  (score = 0%Z /\ check_for_draw b = Ret true /\
     check_for_win b "X" = Ret false /\ check_for_win b "O" = Ret false).

(** The boards a round started on [b0] can have at the top of its loop: the
    reset board, and the board left by a turn of the player and a turn of the
    computer that both went on. *)
Inductive at_loop_top (b0 : board) : board -> Prop :=
| top_first (b : board) :
    initialise_board b0 = Ret b -> at_loop_top b0 b
| top_next (b b1 b2 : board) (stdin rest : list input_line) (k : nat) :
    at_loop_top b0 b ->
    player_turn b stdin = Ret (Continue, b1, rest) ->
    computer_turn b1 k = Ret (Continue, b2) ->
    at_loop_top b0 b2.

(** The boards on which such a round calls [choose_computer_move]. *)
Definition computer_called (b0 b1 : board) : Prop :=
  exists b stdin rest,
    at_loop_top b0 b /\ player_turn b stdin = Ret (Continue, b1, rest).

(** A computation that ended with an exception. *)
Definition failed {A : Type} (m : result A) : bool :=
  match m with
  | Raise _ => true
  | _ => false
  end.

(** The board after X has been placed at (0,0). *)
Definition x_in_corner : board := [["X"; " "; " "]; [" "; " "; " "]; [" "; " "; " "]].

(** The board [main] starts with. *)
Definition numbered : board := [["1"; "2"; "3"]; ["4"; "5"; "6"]; ["7"; "8"; "9"]].

(** The board with nine empty cells. *)
Definition blank : board := [[" "; " "; " "]; [" "; " "; " "]; [" "; " "; " "]].

(** ** Notions for the further properties *)

(** The board has the nine cells the game works on. *)
Definition nine_cells (b : board) : Prop :=
  forall r c, r < 3 -> c < 3 -> exists s, get_cell b r c = Ret s.


(** Every cell of the board is a string of one character. *)
Definition one_char_cells (b : board) : Prop :=
  forall r c s, get_cell b r c = Ret s -> String.length s = 1.

(** An entry of the leaderboard comes before another when its score is not
    the smaller one. *)
Definition not_below (e1 e2 : string * Z) : Prop := (snd e2 <= snd e1)%Z.

(** The entries of score [v], in the order of the list. *)
Definition with_score (v : Z) (items : list (string * Z)) : list (string * Z) :=
  List.filter (fun e => (snd e =? v)%Z) items.

(** The cell that [get_player_move] computes from the number typed. *)
Definition cell_of_number (move : Z) : nat * nat :=
  (Z.to_nat ((move - 1) / 3), Z.to_nat ((move - 1) mod 3)).

(** A line that [get_player_move] passes over on board [b]: not a number, a
    number outside 1..9, or the number of a cell that is not empty. *)
Definition rejected (b : board) (l : input_line) : Prop :=
  match l with
  | None => True
  | Some move =>
      (move < 1)%Z \/ (9 < move)%Z \/
      exists s, get_cell b (fst (cell_of_number move)) (snd (cell_of_number move))
                = Ret s /\ s <> EMPTY
  end.

(** How many of the nine cells hold [mark]. *)
Definition count_mark (b : board) (mark : string) : nat :=
  length (List.filter (holds b mark) all_cells).

(** Every cell is empty or holds one of the two marks. *)
Definition only_marks (b : board) : Prop :=
  forall r c s, get_cell b r c = Ret s -> s = EMPTY \/ s = "X" \/ s = "O".

(** A 3x3 board with [x] cells X, [o] cells O and the others empty. *)
Definition tally (b : board) (x o : nat) : Prop :=
  is_grid b /\ only_marks b /\ count_mark b "X" = x /\ count_mark b "O" = o /\
  x + o + n_empty b = 9.

(** ** Basic facts *)

Lemma is_grid_cells (b : board) :
  is_grid b ->
  exists a1 a2 a3 b1 b2 b3 c1 c2 c3 : string,
    b = [[a1; a2; a3]; [b1; b2; b3]; [c1; c2; c3]].
Proof.
  intros [Hlen Hrows].
  destruct b as [|r1 [|r2 [|r3 [|r4 rest]]]]; simpl in Hlen; try discriminate.
  inversion Hrows as [|? ? H1 Hrows1]; subst.
  inversion Hrows1 as [|? ? H2 Hrows2]; subst.
  inversion Hrows2 as [|? ? H3 _]; subst.
  destruct r1 as [|a1 [|a2 [|a3 [|? ?]]]]; simpl in H1; try discriminate.
  destruct r2 as [|b1 [|b2 [|b3 [|? ?]]]]; simpl in H2; try discriminate.
  destruct r3 as [|c1 [|c2 [|c3 [|? ?]]]]; simpl in H3; try discriminate.
  by exists a1, a2, a3, b1, b2, b3, c1, c2, c3.
Qed.

Lemma cells_is_grid (a1 a2 a3 b1 b2 b3 c1 c2 c3 : string) :
  is_grid [[a1; a2; a3]; [b1; b2; b3]; [c1; c2; c3]].
Proof. split; [reflexivity | repeat constructor]. Qed.

(** Name the nine cells of a grid. *)
Ltac grid b H :=
  let a1 := fresh "a1" in let a2 := fresh "a2" in let a3 := fresh "a3" in
  let b1 := fresh "b1" in let b2 := fresh "b2" in let b3 := fresh "b3" in
  let c1 := fresh "c1" in let c2 := fresh "c2" in let c3 := fresh "c3" in
  destruct (is_grid_cells b H)
    as (a1 & a2 & a3 & b1 & b2 & b3 & c1 & c2 & c3 & ->).

Lemma chain3_grid (b : board) (p1 p2 p3 : nat * nat) (mark x y z : string) :
  get_cell b (fst p1) (snd p1) = Ret x ->
  get_cell b (fst p2) (snd p2) = Ret y ->
  get_cell b (fst p3) (snd p3) = Ret z ->
  chain3 b p1 p2 p3 mark = Ret (line_full b mark [p1; p2; p3]).
Proof.
  intros Hx Hy Hz. unfold chain3, line_full, holds. simpl.
  rewrite Hx, Hy, Hz. simpl.
  destruct (String.eqb_spec x y) as [->|Hxy]; simpl.
  - destruct (String.eqb_spec y z) as [->|Hyz]; simpl.
    + by destruct (String.eqb z mark).
    + destruct (String.eqb_spec y mark) as [->|]; simpl; [|done].
      destruct (String.eqb_spec z mark) as [->|]; simpl; [congruence|done].
  - destruct (String.eqb_spec x mark) as [->|]; simpl; [|done].
    destruct (String.eqb_spec y mark) as [->|]; simpl; [congruence|done].
Qed.

Lemma existsb_Permutation {A : Type} (f : A -> bool) (l l' : list A) :
  Permutation l l' -> existsb f l = existsb f l'.
Proof.
  induction 1 as [|x l l' _ IH|x y l|l l' l'' _ IH1 _ IH2]; simpl.
  - reflexivity.
  - by rewrite IH.
  - by destruct (f x), (f y).
  - by rewrite IH1.
Qed.

(** On a grid [check_for_win] is the disjunction of the eight line tests. *)
Lemma check_for_win_lines (b : board) (mark : string) :
  is_grid b -> check_for_win b mark = Ret (some_line_full winning_lines b mark).
Proof.
  intros H. grid b H.
  unfold check_for_win, range3, some_line_full, winning_lines.
  cbn [seq any_in existsb].
  repeat (erewrite chain3_grid by reflexivity).
  cbn [bind].
  repeat match goal with
         | |- context [line_full ?b ?m ?l] =>
             let t := fresh "t" in generalize (line_full b m l); intros t
         end.
  repeat match goal with t : bool |- _ => destruct t end; reflexivity.
Qed.

Lemma holds_true (b : board) (mark : string) (p : nat * nat) :
  holds b mark p = true <-> get_cell b (fst p) (snd p) = Ret mark.
Proof.
  unfold holds. destruct (get_cell b (fst p) (snd p)) as [s| |]; try (split; discriminate).
  destruct (String.eqb_spec s mark); split; congruence.
Qed.

Lemma line_full_true (b : board) (mark : string) (l : list (nat * nat)) :
  line_full b mark l = true <->
  forall p, In p l -> get_cell b (fst p) (snd p) = Ret mark.
Proof.
  unfold line_full. rewrite forallb_forall.
  split; intros H p Hp; apply holds_true; auto.
Qed.

Lemma some_line_full_true (ls : list (list (nat * nat))) (b : board) (mark : string) :
  some_line_full ls b mark = true <->
  exists l, In l ls /\ forall p, In p l -> get_cell b (fst p) (snd p) = Ret mark.
Proof.
  unfold some_line_full. rewrite existsb_exists.
  split; intros (l & Hl & H); exists l; split; auto; by apply line_full_true.
Qed.

(** C1. On every 3x3 board and for every symbol, [check_for_win] returns
    [True] exactly when one of the eight winning lines has its three cells
    equal to the symbol, and [False] exactly when none has; checking the
    eight lines in any other order gives the same result. *)
Theorem check_for_win_iff_line (b : board) (mark : string) :
  is_grid b ->
  (check_for_win b mark = Ret true <->
     exists l, In l winning_lines /\
       forall p, In p l -> get_cell b (fst p) (snd p) = Ret mark) /\
  (check_for_win b mark = Ret false <->
     ~ exists l, In l winning_lines /\
       forall p, In p l -> get_cell b (fst p) (snd p) = Ret mark) /\
  (forall ls, Permutation ls winning_lines ->
     check_for_win b mark = Ret (some_line_full ls b mark)).
Proof.
  intros H. rewrite (check_for_win_lines b mark H).
  rewrite <- some_line_full_true.
  destruct (some_line_full winning_lines b mark) eqn:E.
  - split; [|split].
    + split; auto.
    + split; [discriminate | intros Hn; by destruct Hn].
    + intros ls Hp. unfold some_line_full in *.
      by rewrite (existsb_Permutation _ _ _ Hp), E.
  - split; [|split].
    + split; [discriminate | intros Hn; discriminate].
    + split; [intros _ Hn; discriminate | auto].
    + intros ls Hp. unfold some_line_full in *.
      by rewrite (existsb_Permutation _ _ _ Hp), E.
Qed.

Lemma column_of_x_wins :
  check_for_win [["O"; "X"; " "]; [" "; "X"; "O"]; [" "; "X"; " "]] "X" = Ret true.
Proof.
  apply (check_for_win_iff_line _ "X" (cells_is_grid "O" "X" " " " " "X" "O" " " "X" " ")).
  exists [(0, 1); (1, 1); (2, 1)]. split.
  - simpl. tauto.
  - intros p [<-|[<-|[<-|[]]]]; reflexivity.
Defined.

(** *** Resetting *)

Lemma initialise_board_grid (b : board) :
  is_grid b -> initialise_board b = Ret blank.
Proof. intros H. grid b H. reflexivity. Qed.

(** C9. [check_for_win] does not ask for a player's mark: on a board that
    [initialise_board] has just reset, the nine cells are [' '] and the win
    check for [' '] returns [True]. *)
Theorem check_for_win_empty_symbol (b : board) :
  is_grid b ->
  exists b0, initialise_board b = Ret b0 /\
    (forall r c, r < 3 -> c < 3 -> get_cell b0 r c = Ret EMPTY) /\
    check_for_win b0 EMPTY = Ret true.
Proof.
  intros H. exists blank. split; [by apply initialise_board_grid|]. split.
  - intros r c Hr Hc.
    destruct r as [|[|[|r]]]; [| | |lia];
      (destruct c as [|[|[|c]]]; [| | |lia]); reflexivity.
  - reflexivity.
Qed.

Lemma reset_board_wins_for_blank :
  is_grid numbered /\
  exists b0,
    initialise_board numbered = Ret b0 /\
    (forall r c, r < 3 -> c < 3 -> get_cell b0 r c = Ret EMPTY) /\
    check_for_win b0 EMPTY = Ret true.
Proof.
  split; [apply cells_is_grid|].
  apply (check_for_win_empty_symbol _ (cells_is_grid "1" "2" "3" "4" "5" "6" "7" "8" "9")).
Defined.

(** *** Empty cells *)

(** Abstract the tests [s == ' '] of the goal into booleans and try them all. *)
Ltac by_cell_cases :=
  repeat match goal with
         | |- context [String.eqb ?s ?t] =>
             let e := fresh "e" in generalize (String.eqb s t); intros e
         end;
  repeat match goal with e : bool |- _ => destruct e end;
  try reflexivity; try discriminate.

Lemma empty_cells_grid (b : board) :
  is_grid b -> empty_cells b = Ret (List.filter (holds b EMPTY) all_cells).
Proof.
  intros H. grid b H.
  unfold empty_cells, all_cells, range3, holds.
  cbn [seq list_prod List.map List.app for_in get_cell lookup list_lookup bind
       List.filter fst snd].
  by_cell_cases.
Qed.

Lemma check_for_draw_grid (b : board) :
  is_grid b -> check_for_draw b = Ret (negb (existsb (holds b EMPTY) all_cells)).
Proof.
  intros H. grid b H.
  unfold check_for_draw, all_cells, range3, holds.
  cbn [seq list_prod List.map List.app any_in get_cell lookup list_lookup bind
       existsb fst snd].
  by_cell_cases.
Qed.

Lemma in_all_cells (r c : nat) : In (r, c) all_cells <-> r < 3 /\ c < 3.
Proof.
  unfold all_cells, range3. rewrite in_prod_iff, !in_seq. lia.
Qed.

Lemma NoDup_all_cells : NoDup all_cells.
Proof. by apply (bool_decide_unpack _). Qed.

Lemma get_cell_lt (b : board) (r c : nat) (s : string) :
  is_grid b -> get_cell b r c = Ret s -> r < 3 /\ c < 3.
Proof.
  intros H. grid b H. intros Hget.
  destruct r as [|[|[|r]]]; [| | |discriminate];
    (destruct c as [|[|[|c]]]; [| | |discriminate]); lia.
Qed.

Lemma get_cell_total (b : board) (r c : nat) :
  is_grid b -> r < 3 -> c < 3 -> exists s, get_cell b r c = Ret s.
Proof.
  intros H Hr Hc. grid b H.
  destruct r as [|[|[|r]]]; [| | |lia];
    (destruct c as [|[|[|c]]]; [| | |lia]); eexists; reflexivity.
Qed.

(** Writing a cell of a grid: the cell holds the mark, the others are kept. *)
Lemma set_cell_grid (b : board) (r c : nat) (mark : string) :
  is_grid b -> r < 3 -> c < 3 ->
  exists b', set_cell b r c mark = Ret b' /\ is_grid b' /\
    get_cell b' r c = Ret mark /\
    forall r' c', (r', c') <> (r, c) -> get_cell b' r' c' = get_cell b r' c'.
Proof.
  intros H Hr Hc. grid b H.
  destruct r as [|[|[|r]]]; [| | |lia];
    (destruct c as [|[|[|c]]]; [| | |lia]);
    (eexists; split; [reflexivity|]; split; [apply cells_is_grid|];
     split; [reflexivity|]; intros r' c' Hne;
     destruct r' as [|[|[|r']]]; try reflexivity;
     destruct c' as [|[|[|c']]]; try reflexivity; by destruct Hne).
Qed.

Lemma filter_nil_existsb {A : Type} (f : A -> bool) (l : list A) :
  List.filter f l = [] <-> existsb f l = false.
Proof.
  induction l as [|x l IH]; simpl; [tauto|].
  destruct (f x); simpl; [split; discriminate | exact IH].
Qed.

Lemma filter_agree {A : Type} (f g : A -> bool) (l : list A) :
  (forall y, In y l -> g y = f y) -> List.filter g l = List.filter f l.
Proof.
  induction l as [|a l IH]; intros Hfg; simpl; [reflexivity|].
  rewrite (Hfg a (or_introl eq_refl)). rewrite IH; [reflexivity|].
  intros y Hy. apply Hfg. by right.
Qed.

(** Dropping one member of a duplicate-free list from a filter shortens the
    result by one. *)
Lemma filter_drop_one {A : Type} (f g : A -> bool) (x : A) (l : list A) :
  NoDup l -> In x l -> f x = true -> g x = false ->
  (forall y, y <> x -> g y = f y) ->
  length (List.filter f l) = S (length (List.filter g l)).
Proof.
  intros Hnd Hin Hf Hg Hfg. induction Hnd as [|a l Ha Hnd IH]; [destruct Hin|].
  simpl. destruct Hin as [->|Hin].
  - rewrite Hf, Hg. simpl. f_equal. f_equal. symmetry. apply filter_agree.
    intros y Hy. apply Hfg. intros ->. apply Ha. by apply list_elem_of_In.
  - assert (a <> x) as Hax.
    { intros ->. apply Ha. by apply list_elem_of_In. }
    rewrite (Hfg a Hax). destruct (f a); simpl; rewrite (IH Hin); reflexivity.
Qed.

(** C5. On every 3x3 board [check_for_draw] returns [True] exactly when the
    list of empty-cell coordinates computed in [choose_computer_move] is
    empty, that is, when none of the nine cells holds [' ']. *)
Theorem check_for_draw_iff_no_empty_cells (b : board) :
  is_grid b ->
  exists cells, empty_cells b = Ret cells /\
    (check_for_draw b = Ret true <-> cells = []) /\
    (check_for_draw b = Ret false <-> cells <> []) /\
    (cells = [] <->
       forall r c, r < 3 -> c < 3 -> get_cell b r c <> Ret EMPTY).
Proof.
  intros H. exists (List.filter (holds b EMPTY) all_cells).
  split; [by apply empty_cells_grid|].
  rewrite (check_for_draw_grid b H), filter_nil_existsb.
  destruct (existsb (holds b EMPTY) all_cells) eqn:E; simpl.
  - split; [split; discriminate|]. split; [split; [discriminate|done]|].
    split; [discriminate|]. intros Hall.
    apply existsb_exists in E as ([r c] & Hin & Hh).
    apply in_all_cells in Hin as [Hr Hc]. apply holds_true in Hh.
    by destruct (Hall r c Hr Hc).
  - split; [done|]. split; [split; [discriminate|intros Hn; by destruct Hn]|].
    split; [|done]. intros _ r c Hr Hc Hget.
    assert (existsb (holds b EMPTY) all_cells = true) as E'; [|congruence].
    apply existsb_exists. exists (r, c).
    split; [by apply in_all_cells | by apply holds_true].
Qed.

Lemma full_board_is_draw :
  is_grid [["X"; "O"; "X"]; ["X"; "O"; "O"]; ["O"; "X"; "X"]] /\
  check_for_draw [["X"; "O"; "X"]; ["X"; "O"; "O"]; ["O"; "X"; "X"]] = Ret true.
Proof.
  split; [apply cells_is_grid|].
  destruct (check_for_draw_iff_no_empty_cells _
              (cells_is_grid "X" "O" "X" "X" "O" "O" "O" "X" "X"))
    as (cells & Hcells & Htrue & _ & _).
  apply Htrue. vm_compute in Hcells. congruence.
Defined.

Lemma in_empty_cells (b : board) (r c : nat) :
  is_grid b ->
  In (r, c) (List.filter (holds b EMPTY) all_cells) <-> get_cell b r c = Ret EMPTY.
Proof.
  intros H. rewrite filter_In, in_all_cells, holds_true. simpl.
  split; [tauto|]. intros Hget. split; [|done]. by apply (get_cell_lt b r c EMPTY).
Qed.

(** Marking an empty cell removes exactly that cell from the empty ones. *)
Lemma empty_cells_after_mark (b b' : board) (r c : nat) (mark : string) :
  is_grid b -> get_cell b r c = Ret EMPTY -> mark <> EMPTY ->
  set_cell b r c mark = Ret b' ->
  is_grid b' /\
  length (List.filter (holds b EMPTY) all_cells)
    = S (length (List.filter (holds b' EMPTY) all_cells)) /\
  forall p, In p (List.filter (holds b' EMPTY) all_cells) <->
            In p (List.filter (holds b EMPTY) all_cells) /\ p <> (r, c).
Proof.
  intros H Hget Hmark Hset.
  destruct (get_cell_lt b r c EMPTY H Hget) as [Hr Hc].
  destruct (set_cell_grid b r c mark H Hr Hc) as (b2 & Hset2 & Hg2 & Hnew & Hold).
  assert (b2 = b') as -> by congruence.
  assert (holds b' EMPTY (r, c) = false) as Hoff.
  { unfold holds. simpl. rewrite Hnew.
    destruct (String.eqb_spec mark EMPTY); congruence. }
  assert (forall y, y <> (r, c) -> holds b' EMPTY y = holds b EMPTY y) as Hsame.
  { intros [r' c'] Hne. unfold holds. simpl. by rewrite Hold. }
  split; [done|]. split.
  - apply (filter_drop_one _ _ (r, c)); auto using NoDup_all_cells.
    + by apply in_all_cells.
    + by apply holds_true.
  - intros p. rewrite !filter_In. split.
    + intros [Hin Hp].
      assert (p <> (r, c)) as Hne by (intros ->; congruence).
      rewrite <- (Hsame p Hne). tauto.
    + intros [[Hin Hp] Hne]. rewrite (Hsame p Hne). tauto.
Qed.

(** C6. On every 3x3 board the list of legal moves has no repetition and
    holds [(r, c)] exactly when cell [(r, c)] is [' '], so a cell of the
    grid is left out exactly when it is occupied; writing a mark other than
    [' '] into an empty cell makes the list exactly one shorter, the marked
    cell being the one that goes. *)
Theorem empty_cells_complement_and_size (b : board) :
  is_grid b ->
  exists cells, empty_cells b = Ret cells /\ NoDup cells /\
    (forall r c, In (r, c) cells <-> get_cell b r c = Ret EMPTY) /\
    (forall r c, r < 3 -> c < 3 ->
       (~ In (r, c) cells <-> exists s, get_cell b r c = Ret s /\ s <> EMPTY)) /\
    (forall r c mark, get_cell b r c = Ret EMPTY -> mark <> EMPTY ->
       exists b' cells', set_cell b r c mark = Ret b' /\
         empty_cells b' = Ret cells' /\
         length cells = S (length cells') /\
         forall p, In p cells' <-> In p cells /\ p <> (r, c)).
Proof.
  intros H. exists (List.filter (holds b EMPTY) all_cells).
  split; [by apply empty_cells_grid|].
  split; [apply NoDup_ListNoDup, List.NoDup_filter, NoDup_ListNoDup, NoDup_all_cells|].
  split; [intros r c; by apply in_empty_cells|]. split.
  - intros r c Hr Hc. rewrite (in_empty_cells b r c H).
    destruct (get_cell_total b r c H Hr Hc) as [s Hs]. rewrite Hs. split.
    + intros Hn. exists s. split; [done|]. congruence.
    + intros (s' & Hs' & Hne) Heq. congruence.
  - intros r c mark Hget Hmark.
    destruct (get_cell_lt b r c EMPTY H Hget) as [Hr Hc].
    destruct (set_cell_grid b r c mark H Hr Hc) as (b' & Hset & _).
    destruct (empty_cells_after_mark b b' r c mark H Hget Hmark Hset)
      as (Hg' & Hlen & Hmem).
    exists b', (List.filter (holds b' EMPTY) all_cells).
    split; [done|]. split; [by apply empty_cells_grid|]. by split.
Qed.

Lemma five_cells_left :
  is_grid [["X"; " "; "O"]; [" "; "X"; " "]; ["O"; " "; " "]] /\
  exists cells,
    empty_cells [["X"; " "; "O"]; [" "; "X"; " "]; ["O"; " "; " "]] = Ret cells /\
    NoDup cells /\ length cells = 5.
Proof.
  split; [apply cells_is_grid|].
  destruct (empty_cells_complement_and_size _
              (cells_is_grid "X" " " "O" " " "X" " " "O" " " " "))
    as (cells & Hcells & Hnd & _).
  exists cells. split; [done|]. split; [done|].
  vm_compute in Hcells. by inversion Hcells.
Defined.

(** *** The player's move *)

Lemma get_player_move_legal (b : board) (stdin : list input_line) (r c : nat)
    (rest : list input_line) :
  get_player_move b stdin = Ret (r, c, rest) ->
  r < 3 /\ c < 3 /\ get_cell b r c = Ret EMPTY /\ length rest < length stdin.
Proof.
  induction stdin as [|l stdin IH]; simpl; [discriminate|].
  assert (get_player_move b stdin = Ret (r, c, rest) ->
          r < 3 /\ c < 3 /\ get_cell b r c = Ret EMPTY /\
          length rest < S (length stdin)) as IH'.
  { intros Hrec. destruct (IH Hrec) as (? & ? & ? & ?). repeat split; auto. }
  destruct l as [move|]; [|exact IH'].
  destruct ((move <? 1)%Z || (move >? 9)%Z) eqn:Hrange; [exact IH'|].
  apply orb_false_elim in Hrange as [Hlo Hhi].
  destruct (get_cell b (Z.to_nat ((move - 1) / 3)) (Z.to_nat ((move - 1) mod 3)))
    as [s| |] eqn:Hget; simpl; try discriminate.
  destruct (String.eqb_spec s EMPTY) as [->|Hs]; [|exact IH'].
  intros [= <- <- <-]. repeat split; auto.
  - apply Z.ltb_ge in Hlo. rewrite Z.gtb_ltb in Hhi. apply Z.ltb_ge in Hhi.
    assert (0 <= (move - 1) / 3 < 3)%Z; [|lia].
    split; [apply Z.div_pos; lia | apply Z.div_lt_upper_bound; lia].
  - assert (0 <= (move - 1) mod 3 < 3)%Z; [|lia].
    apply Z.mod_pos_bound. lia.
Qed.

(** On a grid the only way [get_player_move] fails is the end of input. *)
Lemma get_player_move_total (b : board) (stdin : list input_line) :
  is_grid b ->
  get_player_move b stdin = Raise EOFError \/
  exists r c rest, get_player_move b stdin = Ret (r, c, rest).
Proof.
  intros H. induction stdin as [|l stdin IH]; simpl; [by left|].
  destruct l as [move|]; [|exact IH].
  destruct ((move <? 1)%Z || (move >? 9)%Z) eqn:Hrange; [exact IH|].
  apply orb_false_elim in Hrange as [Hlo Hhi].
  apply Z.ltb_ge in Hlo. rewrite Z.gtb_ltb in Hhi. apply Z.ltb_ge in Hhi.
  destruct (get_cell_total b (Z.to_nat ((move - 1) / 3))
              (Z.to_nat ((move - 1) mod 3)) H) as [s Hs].
  - assert (0 <= (move - 1) / 3 < 3)%Z; [|lia].
    split; [apply Z.div_pos; lia | apply Z.div_lt_upper_bound; lia].
  - assert (0 <= (move - 1) mod 3 < 3)%Z; [|lia].
    apply Z.mod_pos_bound. lia.
  - rewrite Hs. simpl. destruct (String.eqb s EMPTY); [|exact IH].
    right. eauto.
Qed.

(** *** The computer's move *)

Lemma choose_computer_move_grid (b : board) (k : nat) :
  is_grid b ->
  (check_for_draw b = Ret true /\ choose_computer_move b k = Ret None) \/
  (check_for_draw b = Ret false /\
   exists r c, choose_computer_move b k = Ret (Some (r, c)) /\
               get_cell b r c = Ret EMPTY).
Proof.
  intros H. unfold choose_computer_move.
  rewrite (empty_cells_grid b H), (check_for_draw_grid b H). cbn [bind].
  destruct (List.filter (holds b EMPTY) all_cells) as [|c0 cells] eqn:E.
  - left. apply filter_nil_existsb in E. by rewrite E.
  - right. split.
    + destruct (existsb (holds b EMPTY) all_cells) eqn:E'; [done|].
      apply filter_nil_existsb in E'. congruence.
    + set (l := c0 :: cells) in *.
      destruct (nth (k mod length l) l c0) as [r c] eqn:En.
      exists r, c. split; [done|].
      apply (in_empty_cells b r c H). rewrite E, <- En.
      apply nth_In, Nat.mod_upper_bound. unfold l. simpl. lia.
Qed.

(** *** The two halves of a turn *)

Lemma player_turn_inv (b b' : board) (stdin rest : list input_line) (fl : flow) :
  is_grid b ->
  player_turn b stdin = Ret (fl, b', rest) ->
  exists r c, get_player_move b stdin = Ret (r, c, rest) /\
    get_cell b r c = Ret EMPTY /\ set_cell b r c "X" = Ret b' /\ is_grid b' /\
    exists won full, check_for_win b' "X" = Ret won /\
      check_for_draw b' = Ret full /\ fl = verdict won full 1.
Proof.
  intros H. unfold player_turn.
  destruct (get_player_move b stdin) as [[[r c] rest0]| |] eqn:Hmv;
    simpl; try discriminate.
  destruct (get_player_move_legal b stdin r c rest0 Hmv) as (Hr & Hc & Hget & _).
  destruct (set_cell_grid b r c "X" H Hr Hc) as (b1 & Hset & Hg1 & _).
  rewrite Hset. simpl.
  rewrite (check_for_win_lines b1 "X" Hg1), (check_for_draw_grid b1 Hg1).
  cbn [bind]. intros Hres. exists r, c.
  destruct (some_line_full winning_lines b1 "X") eqn:Ew;
    [|destruct (negb (existsb (holds b1 EMPTY) all_cells)) eqn:Ef];
    injection Hres as <- <- <-;
    (split; [done|]; split; [done|]; split; [done|]; split; [done|]);
    rewrite (check_for_win_lines b1 "X" Hg1), (check_for_draw_grid b1 Hg1), Ew;
    eexists _, _; split; try reflexivity; split; try reflexivity;
    try rewrite Ef; reflexivity.
Qed.

Lemma computer_turn_inv (b b' : board) (k : nat) (fl : flow) :
  is_grid b ->
  computer_turn b k = Ret (fl, b') ->
  (choose_computer_move b k = Ret None /\ check_for_draw b = Ret true /\
   b' = b /\ fl = Continue) \/
  exists r c, choose_computer_move b k = Ret (Some (r, c)) /\
    get_cell b r c = Ret EMPTY /\ set_cell b r c "O" = Ret b' /\ is_grid b' /\
    exists won full, check_for_win b' "O" = Ret won /\
      check_for_draw b' = Ret full /\ fl = verdict won full (-1).
Proof.
  intros H. unfold computer_turn.
  destruct (choose_computer_move_grid b k H)
    as [[Hfull Hmv]|(Hfull & r & c & Hmv & Hget)]; rewrite Hmv; cbn [bind].
  - intros [= <- <-]. by left.
  - destruct (get_cell_lt b r c EMPTY H Hget) as [Hr Hc].
    destruct (set_cell_grid b r c "O" H Hr Hc) as (b1 & Hset & Hg1 & _).
    rewrite Hset. cbn [bind].
    rewrite (check_for_win_lines b1 "O" Hg1), (check_for_draw_grid b1 Hg1).
    cbn [bind]. intros Hres. right. exists r, c.
    destruct (some_line_full winning_lines b1 "O") eqn:Ew;
      [|destruct (negb (existsb (holds b1 EMPTY) all_cells)) eqn:Ef];
      injection Hres as <- <-;
      (split; [done|]; split; [done|]; split; [done|]; split; [done|]);
      rewrite (check_for_win_lines b1 "O" Hg1), (check_for_draw_grid b1 Hg1), Ew;
      eexists _, _; split; try reflexivity; split; try reflexivity;
      try rewrite Ef; reflexivity.
Qed.

(** On a grid a turn of the player ends normally or at the end of input; a
    turn of the computer always ends normally. *)
Lemma player_turn_total (b : board) (stdin : list input_line) :
  is_grid b ->
  player_turn b stdin = Raise EOFError \/
  exists fl b' rest, player_turn b stdin = Ret (fl, b', rest).
Proof.
  intros H. unfold player_turn.
  destruct (get_player_move_total b stdin H) as [Heof|(r & c & rest & Hmv)];
    [rewrite Heof; by left|].
  rewrite Hmv. cbn [bind]. right.
  destruct (get_player_move_legal b stdin r c rest Hmv) as (Hr & Hc & _).
  destruct (set_cell_grid b r c "X" H Hr Hc) as (b1 & Hset & Hg1 & _).
  rewrite Hset. cbn [bind].
  rewrite (check_for_win_lines b1 "X" Hg1), (check_for_draw_grid b1 Hg1).
  cbn [bind].
  destruct (some_line_full winning_lines b1 "X");
    [|destruct (negb (existsb (holds b1 EMPTY) all_cells))]; eauto.
Qed.

Lemma computer_turn_total (b : board) (k : nat) :
  is_grid b -> exists fl b', computer_turn b k = Ret (fl, b').
Proof.
  intros H. unfold computer_turn.
  destruct (choose_computer_move_grid b k H)
    as [[Hfull Hmv]|(Hfull & r & c & Hmv & Hget)]; rewrite Hmv; cbn [bind];
    [eauto|].
  destruct (get_cell_lt b r c EMPTY H Hget) as [Hr Hc].
  destruct (set_cell_grid b r c "O" H Hr Hc) as (b1 & Hset & Hg1 & _).
  rewrite Hset. cbn [bind].
  rewrite (check_for_win_lines b1 "O" Hg1), (check_for_draw_grid b1 Hg1).
  cbn [bind].
  destruct (some_line_full winning_lines b1 "O");
    [|destruct (negb (existsb (holds b1 EMPTY) all_cells))]; eauto.
Qed.

(** *** The loop of a round *)

(** Writing [mark] never completes a line of another symbol. *)
Lemma mark_keeps_no_line (b b' : board) (r c : nat) (mark other : string) :
  is_grid b -> r < 3 -> c < 3 -> set_cell b r c mark = Ret b' ->
  other <> mark ->
  check_for_win b other = Ret false -> check_for_win b' other = Ret false.
Proof.
  intros H Hr Hc Hset Hne.
  destruct (set_cell_grid b r c mark H Hr Hc) as (b2 & Hset2 & Hg2 & Hnew & Hold).
  assert (b2 = b') as -> by congruence.
  rewrite (check_for_win_lines b other H), (check_for_win_lines b' other Hg2).
  intros Hret.
  assert (some_line_full winning_lines b other = false) as Hno by congruence.
  f_equal.
  destruct (some_line_full winning_lines b' other) eqn:E; [|reflexivity].
  rewrite <- Hno. symmetry. apply some_line_full_true.
  apply some_line_full_true in E as (l & Hl & Hfull).
  exists l. split; [done|]. intros [r' c'] Hp.
  specialize (Hfull (r', c') Hp). simpl in *.
  rewrite <- Hold; [done|]. intros [= -> ->]. congruence.
Qed.

Lemma no_winner_blank : no_winner blank.
Proof. by split. Qed.

Lemma verdict_continue (won full : bool) (score : Z) :
  verdict won full score = Continue -> won = false /\ full = false.
Proof. by destruct won, full. Qed.

Lemma player_turn_continue (b b1 : board) (stdin rest : list input_line) :
  is_grid b -> no_winner b ->
  player_turn b stdin = Ret (Continue, b1, rest) ->
  is_grid b1 /\ no_winner b1 /\ check_for_draw b1 = Ret false /\
  n_empty b = S (n_empty b1) /\ length rest < length stdin.
Proof.
  intros H [HX HO] Hturn.
  destruct (player_turn_inv b b1 stdin rest Continue H Hturn)
    as (r & c & Hmv & Hget & Hset & Hg1 & won & full & Hwon & Hfull & Hv).
  symmetry in Hv. apply verdict_continue in Hv as [-> ->].
  destruct (get_player_move_legal b stdin r c rest Hmv) as (Hr & Hc & _ & Hlen).
  split; [done|]. split; [|split; [done|split; [|done]]].
  - split; [done|]. by apply (mark_keeps_no_line b b1 r c "X" "O").
  - by apply (empty_cells_after_mark b b1 r c "X").
Qed.

Lemma computer_turn_continue (b b1 : board) (k : nat) :
  is_grid b -> no_winner b -> check_for_draw b = Ret false ->
  computer_turn b k = Ret (Continue, b1) ->
  is_grid b1 /\ no_winner b1 /\ n_empty b = S (n_empty b1) /\
  check_for_draw b1 = Ret false /\
  forall r c, get_cell b1 r c = Ret EMPTY -> get_cell b r c = Ret EMPTY.
Proof.
  intros H [HX HO] Hdraw Hturn.
  destruct (computer_turn_inv b b1 k Continue H Hturn)
    as [(_ & Hfull & _)|(r & c & Hmv & Hget & Hset & Hg1 & won & full & Hwon & Hfull & Hv)];
    [congruence|].
  symmetry in Hv. apply verdict_continue in Hv as [-> ->].
  destruct (get_cell_lt b r c EMPTY H Hget) as [Hr Hc].
  split; [done|]. split; [|split; [|split; [done|]]].
  - split; [|done]. by apply (mark_keeps_no_line b b1 r c "O" "X").
  - by apply (empty_cells_after_mark b b1 r c "O").
  - intros r' c' Hget'.
    destruct (set_cell_grid b r c "O" H Hr Hc) as (b2 & Hset2 & _ & Hnew & Hold).
    assert (b2 = b1) as -> by congruence.
    rewrite <- Hold; [done|]. intros [= -> ->]. rewrite Hnew in Hget'. discriminate.
Qed.

Lemma verdict_return (won full : bool) (score v : Z) :
  verdict won full score = Return v ->
  (won = true /\ v = score) \/ (won = false /\ full = true /\ v = 0%Z).
Proof. destruct won, full; simpl; intros [= <-] || discriminate; auto. Qed.

Lemma player_turn_return (b b1 : board) (stdin rest : list input_line) (v : Z) :
  is_grid b -> no_winner b ->
  player_turn b stdin = Ret (Return v, b1, rest) ->
  is_grid b1 /\ round_end v b1 /\ v <> (-1)%Z.
Proof.
  intros H [HX HO] Hturn.
  destruct (player_turn_inv b b1 stdin rest (Return v) H Hturn)
    as (r & c & Hmv & Hget & Hset & Hg1 & won & full & Hwon & Hfull & Hv).
  destruct (get_cell_lt b r c EMPTY H Hget) as [Hr Hc].
  assert (check_for_win b1 "O" = Ret false) as HO1
    by by apply (mark_keeps_no_line b b1 r c "X" "O").
  split; [done|]. symmetry in Hv.
  destruct (verdict_return _ _ _ _ Hv) as [[-> ->]|(-> & -> & ->)].
  - split; [|done]. by left.
  - split; [|done]. right. right. done.
Qed.

Lemma computer_turn_return (b b1 : board) (k : nat) (v : Z) :
  is_grid b -> no_winner b ->
  computer_turn b k = Ret (Return v, b1) ->
  is_grid b1 /\ round_end v b1 /\ v <> 1%Z.
Proof.
  intros H [HX HO] Hturn.
  destruct (computer_turn_inv b b1 k (Return v) H Hturn)
    as [(_ & _ & _ & ?)|(r & c & Hmv & Hget & Hset & Hg1 & won & full & Hwon & Hfull & Hv)];
    [discriminate|].
  destruct (get_cell_lt b r c EMPTY H Hget) as [Hr Hc].
  assert (check_for_win b1 "X" = Ret false) as HX1
    by by apply (mark_keeps_no_line b b1 r c "O" "X").
  split; [done|]. symmetry in Hv.
  destruct (verdict_return _ _ _ _ Hv) as [[-> ->]|(-> & -> & ->)].
  - split; [|done]. right. by left.
  - split; [|done]. right. right. done.
Qed.

(** Whatever the loop returns is the score of the way the round ended. *)
Lemma play_loop_result (fuel : nat) :
  forall (b b' : board) (stdin rest : list input_line) (rnd : nat -> nat) (score : Z),
    is_grid b -> no_winner b ->
    play_loop fuel b stdin rnd = Ret (score, b', rest) ->
    is_grid b' /\ round_end score b'.
Proof.
  induction fuel as [|fuel IH]; intros b b' stdin rest rnd score H Hno;
    simpl; [discriminate|].
  destruct (player_turn b stdin) as [[[fl b1] rest1]| |] eqn:Hp;
    cbn [bind]; try discriminate.
  destruct fl as [v|].
  - intros [= <- <- <-].
    destruct (player_turn_return b b1 stdin rest1 v H Hno Hp) as (? & ? & _). done.
  - destruct (player_turn_continue b b1 stdin rest1 H Hno Hp)
      as (Hg1 & Hno1 & Hdraw1 & _).
    destruct (computer_turn b1 (rnd 0)) as [[fl b2]| |] eqn:Hc;
      cbn [bind]; try discriminate.
    destruct fl as [v|].
    + intros [= <- <- <-].
      destruct (computer_turn_return b1 b2 (rnd 0) v Hg1 Hno1 Hc) as (? & ? & _). done.
    + destruct (computer_turn_continue b1 b2 (rnd 0) Hg1 Hno1 Hdraw1 Hc)
        as (Hg2 & Hno2 & _).
      apply IH; done.
Qed.

(** With more turns allowed than empty cells call for, the loop does not run
    out of fuel: it returns, or stops at the end of input. *)
Lemma play_loop_fuel (fuel : nat) :
  forall (b : board) (stdin : list input_line) (rnd : nat -> nat),
    is_grid b -> no_winner b -> n_empty b < 2 * fuel ->
    play_loop fuel b stdin rnd = Raise EOFError \/
    exists score b' rest, play_loop fuel b stdin rnd = Ret (score, b', rest).
Proof.
  induction fuel as [|fuel IH]; intros b stdin rnd H Hno Hfuel; [lia|].
  simpl.
  destruct (player_turn_total b stdin H) as [Heof|(fl & b1 & rest1 & Hp)];
    rewrite ?Heof, ?Hp; cbn [bind]; [by left|].
  destruct fl as [v|]; [right; eauto|].
  destruct (player_turn_continue b b1 stdin rest1 H Hno Hp)
    as (Hg1 & Hno1 & Hdraw1 & Hn1 & _).
  destruct (computer_turn_total b1 (rnd 0) Hg1) as (fl & b2 & Hc).
  rewrite Hc. cbn [bind].
  destruct fl as [v|]; [right; eauto|].
  destruct (computer_turn_continue b1 b2 (rnd 0) Hg1 Hno1 Hdraw1 Hc)
    as (Hg2 & Hno2 & Hn2).
  apply IH; auto. lia.
Qed.

(** Fuel beyond what the loop needs changes nothing. *)
Lemma play_loop_more_fuel (fuel extra : nat) :
  forall (b : board) (stdin : list input_line) (rnd : nat -> nat),
    play_loop fuel b stdin rnd <> OutOfFuel ->
    play_loop (fuel + extra) b stdin rnd = play_loop fuel b stdin rnd.
Proof.
  induction fuel as [|fuel IH]; intros b stdin rnd; simpl; [done|].
  destruct (player_turn b stdin) as [[[fl b1] rest1]| |]; cbn [bind]; try done.
  destruct fl as [v|]; [done|].
  destruct (computer_turn b1 (rnd 0)) as [[fl b2]| |]; cbn [bind]; try done.
  destruct fl as [v|]; [done|]. apply IH.
Qed.

(** *** Rounds that come to an end *)

Lemma cell_number_inv (r c : nat) :
  r < 3 -> c < 3 ->
  (1 <= cell_number r c <= 9)%Z /\
  Z.to_nat ((cell_number r c - 1) / 3) = r /\
  Z.to_nat ((cell_number r c - 1) mod 3) = c.
Proof.
  intros Hr Hc.
  destruct r as [|[|[|r]]]; [| | |lia];
    (destruct c as [|[|[|c]]]; [| | |lia]); vm_compute; intuition discriminate.
Qed.

Lemma target_cell_total (b : board) (move : Z) :
  is_grid b -> (move <? 1)%Z || (move >? 9)%Z = false ->
  exists s,
    get_cell b (Z.to_nat ((move - 1) / 3)) (Z.to_nat ((move - 1) mod 3)) = Ret s.
Proof.
  intros H Hrange. apply orb_false_elim in Hrange as [Hlo Hhi].
  apply Z.ltb_ge in Hlo. rewrite Z.gtb_ltb in Hhi. apply Z.ltb_ge in Hhi.
  apply get_cell_total; [done| |].
  - assert (0 <= (move - 1) / 3 < 3)%Z; [|lia].
    split; [apply Z.div_pos; lia | apply Z.div_lt_upper_bound; lia].
  - assert (0 <= (move - 1) mod 3 < 3)%Z; [|lia].
    apply Z.mod_pos_bound. lia.
Qed.

(** When the input holds the number of an empty cell, the player's move is
    found, and the numbers of the other empty cells are still to be read. *)
Lemma get_player_move_finds (b : board) (stdin : list input_line) (r0 c0 : nat) :
  is_grid b -> get_cell b r0 c0 = Ret EMPTY ->
  In (Some (cell_number r0 c0)) stdin ->
  exists r c rest, get_player_move b stdin = Ret (r, c, rest) /\
    forall r' c', get_cell b r' c' = Ret EMPTY -> (r', c') <> (r, c) ->
      In (Some (cell_number r' c')) stdin -> In (Some (cell_number r' c')) rest.
Proof.
  intros H Hget0. induction stdin as [|l stdin IH]; [intros []|].
  assert (forall r' c', get_cell b r' c' = Ret EMPTY ->
            l <> Some (cell_number r' c') ->
            In (Some (cell_number r' c')) (l :: stdin) ->
            In (Some (cell_number r' c')) stdin) as Htail.
  { intros r' c' _ Hne [Heq|Hin]; [congruence|done]. }
  assert ((forall r' c', get_cell b r' c' = Ret EMPTY ->
             l <> Some (cell_number r' c')) ->
          In (Some (cell_number r0 c0)) (l :: stdin) ->
          exists r c rest, get_player_move b stdin = Ret (r, c, rest) /\
            forall r' c', get_cell b r' c' = Ret EMPTY -> (r', c') <> (r, c) ->
              In (Some (cell_number r' c')) (l :: stdin) ->
              In (Some (cell_number r' c')) rest) as Hskip.
  { intros Hne Hin.
    destruct (IH (Htail r0 c0 Hget0 (Hne r0 c0 Hget0) Hin))
      as (r & c & rest & Hmv & Hrest).
    exists r, c, rest. split; [done|]. intros r' c' Hget' Hne' Hin'.
    apply Hrest; auto. }
  intros Hin. simpl. destruct l as [move|].
  - destruct ((move <? 1)%Z || (move >? 9)%Z) eqn:Hrange.
    + apply Hskip; [|done]. intros r' c' Hget' [= ->].
      destruct (get_cell_lt b r' c' EMPTY H Hget') as [Hr' Hc'].
      destruct (cell_number_inv r' c' Hr' Hc') as (Hn & _).
      apply orb_true_iff in Hrange. rewrite Z.ltb_lt, Z.gtb_ltb, Z.ltb_lt in Hrange.
      lia.
    + destruct (target_cell_total b move H Hrange) as [s Hcell].
      rewrite Hcell. cbn [bind].
      destruct (String.eqb_spec s EMPTY) as [->|Hs].
      * eexists _, _, _. split; [reflexivity|].
        intros r' c' Hget' Hne' Hin'. apply (Htail r' c' Hget'); [|done].
        intros [= ->]. apply Hne'.
        destruct (get_cell_lt b r' c' EMPTY H Hget') as [Hr' Hc'].
        destruct (cell_number_inv r' c' Hr' Hc') as (_ & -> & ->). done.
      * apply Hskip; [|done]. intros r' c' Hget' [= ->].
        destruct (get_cell_lt b r' c' EMPTY H Hget') as [Hr' Hc'].
        destruct (cell_number_inv r' c' Hr' Hc') as (_ & Hrow & Hcol).
        rewrite Hrow, Hcol in Hcell. congruence.
  - apply Hskip; [|done]. intros; discriminate.
Qed.

Lemma draw_false_empty_cell (b : board) :
  is_grid b -> check_for_draw b = Ret false ->
  exists r c, get_cell b r c = Ret EMPTY.
Proof.
  intros H Hdraw. rewrite (check_for_draw_grid b H) in Hdraw.
  destruct (existsb (holds b EMPTY) all_cells) eqn:E; [|discriminate].
  apply existsb_exists in E as ([r c] & _ & Hh). apply holds_true in Hh. eauto.
Qed.

(** While the input covers the empty cells the loop returns. *)
Lemma play_loop_returns (fuel : nat) :
  forall (b : board) (stdin : list input_line) (rnd : nat -> nat),
    is_grid b -> no_winner b -> check_for_draw b = Ret false ->
    covers b stdin -> n_empty b < 2 * fuel ->
    exists score b' rest, play_loop fuel b stdin rnd = Ret (score, b', rest).
Proof.
  induction fuel as [|fuel IH]; intros b stdin rnd H Hno Hdraw Hcov Hfuel; [lia|].
  simpl.
  destruct (draw_false_empty_cell b H Hdraw) as (r0 & c0 & Hget0).
  destruct (get_player_move_finds b stdin r0 c0 H Hget0 (Hcov r0 c0 Hget0))
    as (r & c & rest & Hmv & Hrest).
  destruct (player_turn_total b stdin H) as [Heof|(fl & b1 & rest1 & Hp)].
  { unfold player_turn in Heof. rewrite Hmv in Heof. cbn [bind] in Heof.
    destruct (get_player_move_legal b stdin r c rest Hmv) as (Hr & Hc & _).
    destruct (set_cell_grid b r c "X" H Hr Hc) as (b1 & Hset & Hg1 & _).
    rewrite Hset in Heof. cbn [bind] in Heof.
    rewrite (check_for_win_lines b1 "X" Hg1), (check_for_draw_grid b1 Hg1) in Heof.
    cbn [bind] in Heof.
    destruct (some_line_full winning_lines b1 "X");
      [|destruct (negb (existsb (holds b1 EMPTY) all_cells))]; discriminate. }
  rewrite Hp. cbn [bind].
  destruct fl as [v|]; [eauto|].
  destruct (player_turn_continue b b1 stdin rest1 H Hno Hp)
    as (Hg1 & Hno1 & Hdraw1 & Hn1 & _).
  destruct (player_turn_inv b b1 stdin rest1 Continue H Hp)
    as (r1 & c1 & Hmv1 & Hget1 & Hset1 & _).
  assert (r1 = r /\ c1 = c /\ rest1 = rest) as (-> & -> & ->)
    by (repeat split; congruence).
  destruct (get_cell_lt b r c EMPTY H Hget1) as [Hr Hc].
  destruct (set_cell_grid b r c "X" H Hr Hc) as (b1' & Hset' & _ & Hnew & Hold).
  assert (b1' = b1) as -> by congruence.
  destruct (computer_turn_total b1 (rnd 0) Hg1) as (fl & b2 & Hcomp).
  rewrite Hcomp. cbn [bind].
  destruct fl as [v|]; [eauto|].
  destruct (computer_turn_continue b1 b2 (rnd 0) Hg1 Hno1 Hdraw1 Hcomp)
    as (Hg2 & Hno2 & Hn2 & Hdraw2 & Hsub).
  apply IH; auto; [|lia].
  intros r' c' Hget2. specialize (Hsub r' c' Hget2).
  assert ((r', c') <> (r, c)) as Hne.
  { intros [= -> ->]. rewrite Hnew in Hsub. discriminate. }
  rewrite Hold in Hsub by done. apply Hrest; auto.
Qed.

Lemma play_game_unfold (fuel : nat) (b : board) (stdin : list input_line)
    (rnd : nat -> nat) :
  is_grid b -> play_game fuel b stdin rnd = play_loop fuel blank stdin rnd.
Proof. intros H. unfold play_game. by rewrite (initialise_board_grid b H). Qed.

(** On a 3x3 board five passes are as good as any larger number. *)
Lemma play_game_fuel (fuel : nat) (b : board) (stdin : list input_line)
    (rnd : nat -> nat) :
  is_grid b -> 5 <= fuel ->
  play_game fuel b stdin rnd = play_game 5 b stdin rnd.
Proof.
  intros H Hfuel. rewrite !(play_game_unfold _ b stdin rnd H).
  replace fuel with (5 + (fuel - 5)) by lia.
  apply play_loop_more_fuel.
  destruct (play_loop_fuel 5 blank stdin rnd (cells_is_grid _ _ _ _ _ _ _ _ _)
              no_winner_blank) as [Heof|(score & b' & rest & Hret)].
  - change (n_empty blank) with 9. lia.
  - rewrite Heof. discriminate.
  - rewrite Hret. discriminate.
Qed.

(** One full pass through the loop body leads from a board at the top of the
    loop to the next one. *)
Lemma play_loop_step (fuel : nat) (b0 b b1 b2 : board)
    (stdin rest : list input_line) (rnd : nat -> nat) :
  at_loop_top b0 b ->
  player_turn b stdin = Ret (Continue, b1, rest) ->
  computer_turn b1 (rnd 0) = Ret (Continue, b2) ->
  computer_called b0 b1 /\ at_loop_top b0 b2 /\
  play_loop (S fuel) b stdin rnd = play_loop fuel b2 rest (fun n => rnd (S n)).
Proof.
  intros Htop Hp Hc. split; [|split].
  - by exists b, stdin, rest.
  - by apply (top_next b0 b b1 b2 stdin rest (rnd 0)).
  - simpl. rewrite Hp. cbn [bind]. by rewrite Hc.
Qed.

(** C4. A round on a 3x3 board that is allowed five passes through its loop
    never runs short of them: it returns, or stops at the end of the input,
    and it does return when the input holds each of the numbers 1 to 9.
    What it returns is [1] with a line of X on the board it leaves, [-1] with
    a line of O, or [0] with a full board on which neither mark has a line;
    it returns nothing else. *)
Theorem play_game_score (b : board) (fuel : nat) (stdin : list input_line)
    (rnd : nat -> nat) :
  is_grid b ->
  (5 <= fuel ->
     play_game fuel b stdin rnd = Raise EOFError \/
     exists score b' rest, play_game fuel b stdin rnd = Ret (score, b', rest)) /\
  (5 <= fuel -> (forall n, (1 <= n <= 9)%Z -> In (Some n) stdin) ->
     exists score b' rest, play_game fuel b stdin rnd = Ret (score, b', rest)) /\
  (forall score b' rest,
     play_game fuel b stdin rnd = Ret (score, b', rest) ->
     (score = 1%Z /\ check_for_win b' "X" = Ret true /\
        check_for_win b' "O" = Ret false) \/
     (score = (-1)%Z /\ check_for_win b' "O" = Ret true /\
        check_for_win b' "X" = Ret false) \/
     (score = 0%Z /\ check_for_draw b' = Ret true /\
        check_for_win b' "X" = Ret false /\ check_for_win b' "O" = Ret false)).
Proof.
  intros H. rewrite (play_game_unfold fuel b stdin rnd H).
  split; [|split].
  - intros Hfuel. apply play_loop_fuel.
    + apply cells_is_grid.
    + apply no_winner_blank.
    + change (n_empty blank) with 9. lia.
  - intros Hfuel Hall. apply play_loop_returns.
    + apply cells_is_grid.
    + apply no_winner_blank.
    + reflexivity.
    + intros r c Hget.
      destruct (get_cell_lt blank r c EMPTY (cells_is_grid _ _ _ _ _ _ _ _ _) Hget)
        as [Hr Hc].
      apply Hall. by destruct (cell_number_inv r c Hr Hc) as (? & _).
    + change (n_empty blank) with 9. lia.
  - intros score b' rest Hret.
    apply (play_loop_result fuel blank b' stdin rest rnd score
             (cells_is_grid _ _ _ _ _ _ _ _ _) no_winner_blank Hret).
Qed.

Lemma round_lost_by_player :
  is_grid numbered /\
  exists score b' rest,
    play_game 5 numbered
      [Some 5; None; Some 1; Some 12; Some 6; Some 7; Some 8]%Z
      (fun n => nth n [0; 0; 0; 3] 0) = Ret (score, b', rest) /\
    score = (-1)%Z /\ check_for_win b' "O" = Ret true.
Proof.
  split; [apply cells_is_grid|].
  eexists _, _, _. split; [vm_compute; reflexivity|].
  destruct (play_game_score numbered 5
              [Some 5; None; Some 1; Some 12; Some 6; Some 7; Some 8]%Z
              (fun n => nth n [0; 0; 0; 3] 0)
              (cells_is_grid "1" "2" "3" "4" "5" "6" "7" "8" "9")) as (_ & _ & Hres).
  destruct (Hres _ _ _ ltac:(vm_compute; reflexivity))
    as [(Hs & _)|[(Hs & HO & _)|(Hs & _)]]; try discriminate Hs.
  split; [reflexivity | exact HO].
Defined.

(** C2. After a move the win check comes before the draw check.  On a 3x3
    board, a move of the player that completes a line of X ends the round
    with [1], and a move of the computer that completes a line of O ends it
    with [-1], also when that move fills the board; a turn ends the round
    with the draw score [0] only on a full board on which the mover has no
    line; and a round that returns [0] leaves a full board on which neither
    mark has a line, while a line of X (of O) on the board left means the
    round returned [1] ([-1]). *)
Theorem win_check_precedes_draw_check (b : board) :
  is_grid b ->
  (forall stdin r c rest b1,
     get_player_move b stdin = Ret (r, c, rest) ->
     set_cell b r c "X" = Ret b1 ->
     check_for_win b1 "X" = Ret true -> check_for_draw b1 = Ret true ->
     player_turn b stdin = Ret (Return 1, b1, rest)) /\
  (forall k r c b1,
     choose_computer_move b k = Ret (Some (r, c)) ->
     set_cell b r c "O" = Ret b1 ->
     check_for_win b1 "O" = Ret true -> check_for_draw b1 = Ret true ->
     computer_turn b k = Ret (Return (-1), b1)) /\
  (forall stdin b1 rest,
     player_turn b stdin = Ret (Return 0, b1, rest) ->
     check_for_draw b1 = Ret true /\ check_for_win b1 "X" = Ret false) /\
  (forall k b1,
     computer_turn b k = Ret (Return 0, b1) ->
     check_for_draw b1 = Ret true /\ check_for_win b1 "O" = Ret false) /\
  (forall fuel stdin rnd score b' rest,
     play_game fuel b stdin rnd = Ret (score, b', rest) ->
     (check_for_win b' "X" = Ret true -> score = 1%Z) /\
     (check_for_win b' "O" = Ret true -> score = (-1)%Z) /\
     (score = 0%Z ->
        check_for_draw b' = Ret true /\ check_for_win b' "X" = Ret false /\
        check_for_win b' "O" = Ret false)).
Proof.
  intros H.
  assert (forall fuel stdin rnd score b' rest,
            play_game fuel b stdin rnd = Ret (score, b', rest) ->
            round_end score b') as Hend.
  { intros fuel stdin rnd score b' rest Hret.
    rewrite (play_game_unfold fuel b stdin rnd H) in Hret.
    apply (play_loop_result fuel blank b' stdin rest rnd score
             (cells_is_grid _ _ _ _ _ _ _ _ _) no_winner_blank Hret). }
  split; [|split; [|split; [|split]]].
  - intros stdin r c rest b1 Hmv Hset Hwin _.
    unfold player_turn. rewrite Hmv. cbn [bind]. rewrite Hset. cbn [bind].
    by rewrite Hwin.
  - intros k r c b1 Hmv Hset Hwin _.
    unfold computer_turn. rewrite Hmv. cbn [bind]. rewrite Hset. cbn [bind].
    by rewrite Hwin.
  - intros stdin b1 rest Hturn.
    destruct (player_turn_inv b b1 stdin rest (Return 0) H Hturn)
      as (r & c & _ & _ & _ & _ & won & full & Hwon & Hfull & Hv).
    symmetry in Hv.
    destruct (verdict_return _ _ _ _ Hv) as [[_ ?]|(-> & -> & _)];
      [discriminate|done].
  - intros k b1 Hturn.
    destruct (computer_turn_inv b b1 k (Return 0) H Hturn)
      as [(_ & _ & _ & ?)|(r & c & _ & _ & _ & _ & won & full & Hwon & Hfull & Hv)];
      [discriminate|].
    symmetry in Hv.
    destruct (verdict_return _ _ _ _ Hv) as [[_ ?]|(-> & -> & _)];
      [discriminate|done].
  - intros fuel stdin rnd score b' rest Hret.
    destruct (Hend fuel stdin rnd score b' rest Hret)
      as [(-> & HX & HO)|[(-> & HO & HX)|(-> & Hfull & HX & HO)]].
    + split; [done|]. split; [congruence | discriminate].
    + split; [congruence|]. split; [done | discriminate].
    + split; [congruence|]. split; [congruence | done].
Qed.

Lemma last_cell_wins_round :
  is_grid numbered /\
  exists score b' rest,
    play_game 5 numbered
      [Some 1; Some 3; Some 7; Some 9; Some 5]%Z
      (fun n => nth n [0; 0; 1; 1] 0) = Ret (score, b', rest) /\
    check_for_draw b' = Ret true /\ score = 1%Z.
Proof.
  split; [apply cells_is_grid|].
  eexists _, _, _. split; [vm_compute; reflexivity|].
  split; [reflexivity|].
  destruct (win_check_precedes_draw_check
              numbered
              (cells_is_grid "1" "2" "3" "4" "5" "6" "7" "8" "9"))
    as (_ & _ & _ & _ & Hround).
  destruct (Hround 5 [Some 1; Some 3; Some 7; Some 9; Some 5]%Z
              (fun n => nth n [0; 0; 1; 1] 0) _ _ _ ltac:(vm_compute; reflexivity))
    as (HX & _).
  apply HX. reflexivity.
Defined.

(** *** Three rounds *)

(** The player takes the top row while the computer plays elsewhere. *)
Example round_won_by_player :
  play_game 5 numbered [Some 1; Some 2; Some 3]%Z (fun _ => 3)
  = Ret (1%Z, [["X"; "X"; "X"]; [" "; "O"; " "]; ["O"; " "; " "]], []).
Proof. reflexivity. Qed.

(** Nine marks and no line. *)
Example round_drawn :
  play_game 5 numbered [Some 1; Some 3; Some 4; Some 8; Some 9]%Z
    (fun n => nth n [0; 1; 0; 0] 0)
  = Ret (0%Z, [["X"; "O"; "X"]; ["X"; "O"; "O"]; ["O"; "X"; "X"]], []).
Proof. reflexivity. Qed.

(** The input ends before the round does. *)
Example round_cut_short :
  play_game 5 numbered [Some 1; Some 1; None]%Z (fun _ => 0) = Raise EOFError.
Proof. reflexivity. Qed.

(** *** Reachable boards *)

Lemma at_loop_top_inv (b0 b : board) :
  is_grid b0 -> at_loop_top b0 b -> is_grid b /\ no_winner b.
Proof.
  intros H0. induction 1 as [b Hinit|b b1 b2 stdin rest k _ IH Hp Hc].
  - rewrite (initialise_board_grid b0 H0) in Hinit. injection Hinit as <-.
    split; [apply cells_is_grid | apply no_winner_blank].
  - destruct IH as [Hg Hno].
    destruct (player_turn_continue b b1 stdin rest Hg Hno Hp)
      as (Hg1 & Hno1 & Hdraw1 & _).
    destruct (computer_turn_continue b1 b2 k Hg1 Hno1 Hdraw1 Hc) as (? & ? & _).
    done.
Qed.

(** C10. In a round on a 3x3 board, every board on which [play_game] calls
    [choose_computer_move] has an empty cell: the call returns the
    coordinates of an empty cell, whatever the generator draws, and never the
    pair [(None, None)]. *)
Theorem computer_move_always_exists (b0 b1 : board) :
  is_grid b0 -> computer_called b0 b1 ->
  (exists r c, get_cell b1 r c = Ret EMPTY) /\
  forall k,
    choose_computer_move b1 k <> Ret None /\
    exists r c, choose_computer_move b1 k = Ret (Some (r, c)) /\
                get_cell b1 r c = Ret EMPTY.
Proof.
  intros H0 (b & stdin & rest & Htop & Hp).
  destruct (at_loop_top_inv b0 b H0 Htop) as [Hg Hno].
  destruct (player_turn_continue b b1 stdin rest Hg Hno Hp)
    as (Hg1 & _ & Hdraw1 & _).
  assert (forall k, exists r c, choose_computer_move b1 k = Ret (Some (r, c)) /\
                                get_cell b1 r c = Ret EMPTY) as Hsome.
  { intros k.
    destruct (choose_computer_move_grid b1 k Hg1) as [[Hfull _]|[_ Hmv]];
      [congruence | exact Hmv]. }
  split.
  - destruct (Hsome 0) as (r & c & _ & Hget). eauto.
  - intros k. split; [|apply Hsome].
    destruct (Hsome k) as (r & c & Hmv & _). congruence.
Qed.

Lemma computer_answers_centre :
  is_grid numbered /\
  computer_called numbered
    [[" "; " "; " "]; [" "; "X"; " "]; [" "; " "; " "]] /\
  choose_computer_move [[" "; " "; " "]; [" "; "X"; " "]; [" "; " "; " "]] 11
    <> Ret None.
Proof.
  assert (computer_called numbered
            [[" "; " "; " "]; [" "; "X"; " "]; [" "; " "; " "]]) as Hcalled.
  { exists blank, [Some 5%Z], []. split; [by apply top_first | reflexivity]. }
  split; [apply cells_is_grid|]. split; [exact Hcalled|].
  apply (computer_move_always_exists _ _
           (cells_is_grid "1" "2" "3" "4" "5" "6" "7" "8" "9") Hcalled).
Defined.

(** *** Moves on occupied cells *)

(** A turn changes no cell that was occupied before it. *)
Lemma set_empty_keeps_occupied (b b' : board) (r c : nat) (mark : string) :
  is_grid b -> get_cell b r c = Ret EMPTY -> set_cell b r c mark = Ret b' ->
  forall r' c' s, get_cell b r' c' = Ret s -> s <> EMPTY -> get_cell b' r' c' = Ret s.
Proof.
  intros H Hget Hset r' c' s Hs Hne.
  destruct (get_cell_lt b r c EMPTY H Hget) as [Hr Hc].
  destruct (set_cell_grid b r c mark H Hr Hc) as (b2 & Hset2 & _ & _ & Hold).
  assert (b2 = b') as -> by congruence.
  rewrite Hold; [done|]. intros [= -> ->]. congruence.
Qed.

(** The claim of C3 fails on the code: with X at (0,0), the player's attempt
    on cell 1 does not make [get_player_move] fail; the call goes on to the
    next line and returns the move typed there. *)
Lemma illegal_move_does_not_fail :
  get_cell x_in_corner 0 0 = Ret "X" /\
  failed (get_player_move x_in_corner [Some 1%Z; Some 2%Z]) = false /\
  get_player_move x_in_corner [Some 1%Z; Some 2%Z] = Ret (0, 1, []).
Proof. repeat split. Qed.

(** C3, amended. On a 3x3 board [get_player_move] raises no error for a line
    that is not a number, a number outside 1..9 or the number of a cell that
    is not [' ']: it passes on to the next line, the board being the same,
    and the move it returns addresses an empty cell of the grid.  The
    computer's mark is written without a test, at a cell that
    [choose_computer_move] took among the empty ones.  So a turn of either
    side changes no occupied cell: once X is at (0,0), the player's attempt
    on cell 1 is skipped, the computer does not choose (0,0), and the cell
    still holds X. *)
Theorem illegal_moves_are_skipped (b : board) :
  is_grid b ->
  (forall rest, get_player_move b (None :: rest) = get_player_move b rest) /\
  (forall move rest, (move < 1 \/ 9 < move)%Z ->
     get_player_move b (Some move :: rest) = get_player_move b rest) /\
  (forall move rest s, (1 <= move <= 9)%Z ->
     get_cell b (Z.to_nat ((move - 1) / 3)) (Z.to_nat ((move - 1) mod 3)) = Ret s ->
     s <> EMPTY ->
     get_player_move b (Some move :: rest) = get_player_move b rest) /\
  (forall stdin r c rest, get_player_move b stdin = Ret (r, c, rest) ->
     r < 3 /\ c < 3 /\ get_cell b r c = Ret EMPTY) /\
  (forall k r c, choose_computer_move b k = Ret (Some (r, c)) ->
     r < 3 /\ c < 3 /\ get_cell b r c = Ret EMPTY) /\
  (forall stdin fl b' rest, player_turn b stdin = Ret (fl, b', rest) ->
     forall r c s, get_cell b r c = Ret s -> s <> EMPTY -> get_cell b' r c = Ret s) /\
  (forall k fl b', computer_turn b k = Ret (fl, b') ->
     forall r c s, get_cell b r c = Ret s -> s <> EMPTY -> get_cell b' r c = Ret s).
Proof.
  intros H.
  split; [|split; [|split; [|split; [|split; [|split]]]]].
  - reflexivity.
  - intros move rest Hout. simpl.
    assert ((move <? 1)%Z || (move >? 9)%Z = true) as ->; [|reflexivity].
    apply orb_true_iff. rewrite Z.ltb_lt, Z.gtb_ltb, Z.ltb_lt. lia.
  - intros move rest s Hin Hget Hs. simpl.
    assert ((move <? 1)%Z || (move >? 9)%Z = false) as ->.
    { apply orb_false_iff. rewrite Z.ltb_ge, Z.gtb_ltb, Z.ltb_ge. lia. }
    rewrite Hget. simpl.
    by destruct (String.eqb_spec s EMPTY).
  - intros stdin r c rest Hmv.
    destruct (get_player_move_legal b stdin r c rest Hmv) as (? & ? & ? & _). done.
  - intros k r c Hmv.
    destruct (choose_computer_move_grid b k H)
      as [[_ Hnone]|(_ & r' & c' & Hsome & Hget)]; [congruence|].
    assert (r' = r /\ c' = c) as [-> ->] by (split; congruence).
    destruct (get_cell_lt b r c EMPTY H Hget). done.
  - intros stdin fl b' rest Hturn.
    destruct (player_turn_inv b b' stdin rest fl H Hturn)
      as (r & c & _ & Hget & Hset & _).
    by apply (set_empty_keeps_occupied b b' r c "X").
  - intros k fl b' Hturn.
    destruct (computer_turn_inv b b' k fl H Hturn)
      as [(_ & _ & -> & _)|(r & c & _ & Hget & Hset & _)]; [done|].
    by apply (set_empty_keeps_occupied b b' r c "O").
Qed.

Lemma corner_stays_x :
  is_grid x_in_corner /\
  get_player_move x_in_corner [Some 1%Z; Some 2%Z]
    = get_player_move x_in_corner [Some 2%Z] /\
  (forall k fl b', computer_turn x_in_corner k = Ret (fl, b') ->
                   get_cell b' 0 0 = Ret "X").
Proof.
  destruct (illegal_moves_are_skipped x_in_corner
              (cells_is_grid "X" " " " " " " " " " " " " " " " "))
    as (_ & _ & Hskip & _ & _ & _ & Hcomp).
  split; [apply cells_is_grid|]. split.
  - apply (Hskip 1%Z [Some 2%Z] "X"); [lia | reflexivity | discriminate].
  - intros k fl b' Hturn.
    apply (Hcomp k fl b' Hturn 0 0 "X"); [reflexivity | discriminate].
Defined.

(** ** The leaderboard *)

(** *** Dictionaries *)







Section StoreFacts.

Context {pyfloat : Type} (float_add_int : pyfloat -> Z -> result pyfloat).

(** C7. [load_scores] returns the empty mapping when [leaderboard.txt] does
    not exist and when [json.load] raises [JSONDecodeError] on it.  A file
    that is corrupt in another way is not caught by the [except] clause: on
    brackets nested too deep [RecursionError] reaches the caller, on bytes
    that are no text [UnicodeDecodeError], on a path that cannot be opened
    [OSError]. *)
Theorem load_scores_lets_errors_escape :
  load_scores (pyfloat := pyfloat) None = Ret (JObject []) /\
  load_scores (pyfloat := pyfloat) (Some Unparsable) = Ret (JObject []) /\
  load_scores (pyfloat := pyfloat) (Some TooDeep) = Raise RecursionError /\
  load_scores (pyfloat := pyfloat) (Some Undecodable) = Raise UnicodeDecodeError /\
  load_scores (pyfloat := pyfloat) (Some Unreadable) = Raise OSError /\
  failed (load_scores (pyfloat := pyfloat) (Some TooDeep)) = true /\
  forall name stdin score,
    save_score float_add_int score (name :: stdin) (Some TooDeep)
    = Raise RecursionError.
Proof. repeat split. Qed.




End StoreFacts.

(** A first save creates the entry; a corrupt file is overwritten. *)
Example first_save :
  save_score no_float_add 2 ["ann"] None
  = Ret (Some (Parses (scores [("ann", 2%Z)])), []) /\
  save_score no_float_add (-1) ["bob"] (Some Unparsable)
  = Ret (Some (Parses (scores [("bob", (-1)%Z)])), []).
Proof. split; reflexivity. Qed.

(** A file that holds a JSON array is not a mapping: saving raises. *)
Example save_on_array :
  save_score no_float_add 2 ["ann"] (Some (Parses (JArray []))) = Raise AttributeError.
Proof. reflexivity. Qed.


(** ** Further properties of the game *)

(** *** Cell numbers *)

Lemma cell_of_number_inv (move : Z) :
  (1 <= move <= 9)%Z ->
  fst (cell_of_number move) < 3 /\ snd (cell_of_number move) < 3 /\
  cell_number (fst (cell_of_number move)) (snd (cell_of_number move)) = move.
Proof.
  intros Hm.
  assert (move = 1 \/ move = 2 \/ move = 3 \/ move = 4 \/ move = 5 \/ move = 6 \/
          move = 7 \/ move = 8 \/ move = 9)%Z as Hcases by lia.
  repeat destruct Hcases as [->|Hcases]; try subst move; vm_compute; intuition lia.
Qed.

Lemma rejected_skip (b : board) (l : input_line) (stdin : list input_line) :
  rejected b l -> get_player_move b (l :: stdin) = get_player_move b stdin.
Proof.
  destruct l as [move|]; [|reflexivity]. simpl.
  intros [Hlo|[Hhi|(s & Hget & Hs)]].
  - assert ((move <? 1)%Z = true) as -> by (apply Z.ltb_lt; lia). reflexivity.
  - assert ((move >? 9)%Z = true) as ->.
    { rewrite Z.gtb_ltb. apply Z.ltb_lt. lia. }
    by rewrite orb_true_r.
  - destruct ((move <? 1)%Z || (move >? 9)%Z); [reflexivity|].
    unfold cell_of_number in Hget. simpl in Hget. rewrite Hget. cbn [bind].
    by destruct (String.eqb_spec s EMPTY).
Qed.

(** X1. On a 3x3 board [get_player_move] returns the first line of the input
    that is a number from 1 to 9 addressing an empty cell: the lines before
    it are all passed over, the lines after it are left unread, and the cell
    returned is the one numbered by that line, rows first. *)
Theorem get_player_move_first_legal (b : board) (stdin rest : list input_line)
    (r c : nat) :
  is_grid b ->
  (get_player_move b stdin = Ret (r, c, rest) <->
   exists skipped move,
     stdin = (skipped ++ Some move :: rest)%list /\
     Forall (rejected b) skipped /\
     (1 <= move <= 9)%Z /\ cell_of_number move = (r, c) /\
     cell_number r c = move /\ r < 3 /\ c < 3 /\ get_cell b r c = Ret EMPTY).
Proof.
  intros H. split.
  - revert rest. induction stdin as [|l stdin IH]; intros rest; simpl; [discriminate|].
    assert (rejected b l -> get_player_move b stdin = Ret (r, c, rest) ->
            exists skipped move,
              l :: stdin = (skipped ++ Some move :: rest)%list /\
              Forall (rejected b) skipped /\
              (1 <= move <= 9)%Z /\ cell_of_number move = (r, c) /\
              cell_number r c = move /\ r < 3 /\ c < 3 /\
              get_cell b r c = Ret EMPTY) as Hskip.
    { intros Hrej Hrec.
      destruct (IH rest Hrec) as (skipped & move & -> & Hall & Hrest).
      exists (l :: skipped), move. split; [reflexivity|].
      split; [by constructor | exact Hrest]. }
    destruct l as [move|]; [|by apply Hskip].
    destruct ((move <? 1)%Z || (move >? 9)%Z) eqn:Hrange.
    { apply Hskip. simpl. apply orb_true_iff in Hrange.
      rewrite Z.ltb_lt, Z.gtb_ltb, Z.ltb_lt in Hrange. tauto. }
    destruct (target_cell_total b move H Hrange) as [s Hcell].
    rewrite Hcell. cbn [bind].
    apply orb_false_iff in Hrange.
    rewrite Z.ltb_ge, Z.gtb_ltb, Z.ltb_ge in Hrange.
    destruct (String.eqb_spec s EMPTY) as [->|Hs].
    + intros [= <- <- <-]. exists [], move.
      destruct (cell_of_number_inv move ltac:(lia)) as (Hr & Hc & Hnum).
      repeat split; auto; lia.
    + apply Hskip. simpl. right. right. by exists s.
  - intros (skipped & move & -> & Hall & Hm & Hcell & _ & _ & _ & Hget).
    induction Hall as [|l skipped Hrej _ IH]; simpl.
    + assert ((move <? 1)%Z || (move >? 9)%Z = false) as ->.
      { apply orb_false_iff. rewrite Z.ltb_ge, Z.gtb_ltb, Z.ltb_ge. lia. }
      injection Hcell as Hr Hc. rewrite Hr, Hc, Hget. reflexivity.
    + rewrite <- IH. by apply (rejected_skip b l).
Qed.

Lemma second_line_is_taken :
  is_grid x_in_corner /\
  get_player_move x_in_corner [None; Some 1%Z; Some 12%Z; Some 6%Z; Some 2%Z]
  = Ret (1, 2, [Some 2%Z]).
Proof.
  split; [apply cells_is_grid|].
  apply (get_player_move_first_legal x_in_corner _ _ 1 2
           (cells_is_grid "X" " " " " " " " " " " " " " " " ")).
  exists [None; Some 1%Z; Some 12%Z], 6%Z.
  split; [reflexivity|]. split.
  - constructor; [exact I|]. constructor.
    { right. right. exists "X". split; [reflexivity | discriminate]. }
    constructor; [|constructor]. right. left. lia.
  - repeat split; lia.
Defined.

Lemma draw_iff_no_empty (b : board) :
  is_grid b -> (check_for_draw b = Ret true <-> n_empty b = 0).
Proof.
  intros H. rewrite (check_for_draw_grid b H). unfold n_empty.
  destruct (existsb (holds b EMPTY) all_cells) eqn:E; cbn [negb].
  - split; [discriminate|]. intros Hlen.
    apply length_zero_iff_nil, filter_nil_existsb in Hlen. congruence.
  - split; [|done]. intros _. apply filter_nil_existsb in E. by rewrite E.
Qed.

(** X2. On a 3x3 board without an empty cell [get_player_move] never returns
    a move: it passes over every line, whatever is typed, and ends only when
    the input does. *)
Theorem get_player_move_full_board (b : board) (stdin : list input_line) :
  is_grid b -> check_for_draw b = Ret true ->
  get_player_move b stdin = Raise EOFError.
Proof.
  intros H Hfull.
  destruct (get_player_move_total b stdin H) as [Heof|(r & c & rest & Hmv)];
    [done|].
  destruct (get_player_move_legal b stdin r c rest Hmv) as (_ & _ & Hget & _).
  apply (draw_iff_no_empty b H) in Hfull.
  assert (In (r, c) (List.filter (holds b EMPTY) all_cells)) as Hin
    by by apply in_empty_cells.
  unfold n_empty in Hfull. apply length_zero_iff_nil in Hfull.
  rewrite Hfull in Hin. destruct Hin.
Qed.

Lemma no_move_on_full_board :
  is_grid [["X"; "O"; "X"]; ["X"; "O"; "O"]; ["O"; "X"; "X"]] /\
  get_player_move [["X"; "O"; "X"]; ["X"; "O"; "O"]; ["O"; "X"; "X"]]
    [Some 1%Z; Some 5%Z; None; Some 9%Z] = Raise EOFError.
Proof.
  split; [apply cells_is_grid|].
  apply get_player_move_full_board; [apply cells_is_grid | reflexivity].
Defined.

(** *** Marks on the board *)

(** Marking an empty cell adds one to the count of the mark and leaves the
    counts of the other symbols alone. *)
Lemma count_after_mark (b b' : board) (r c : nat) (mark : string) :
  is_grid b -> get_cell b r c = Ret EMPTY -> mark <> EMPTY ->
  set_cell b r c mark = Ret b' ->
  count_mark b' mark = S (count_mark b mark) /\
  forall other, other <> mark -> other <> EMPTY ->
    forall p, holds b' other p = holds b other p.
Proof.
  intros H Hget Hmark Hset.
  destruct (get_cell_lt b r c EMPTY H Hget) as [Hr Hc].
  destruct (set_cell_grid b r c mark H Hr Hc) as (b2 & Hset2 & _ & Hnew & Hold).
  assert (b2 = b') as -> by congruence.
  split.
  - unfold count_mark. apply (filter_drop_one _ _ (r, c)).
    + apply NoDup_all_cells.
    + by apply in_all_cells.
    + by apply holds_true.
    + unfold holds. simpl. rewrite Hget.
      destruct (String.eqb_spec EMPTY mark); congruence.
    + intros [r' c'] Hne. unfold holds. simpl. by rewrite Hold.
  - intros other Hne Hne' [r' c']. unfold holds. simpl.
    destruct (decide ((r', c') = (r, c))) as [[= -> ->]|Hp].
    + rewrite Hnew, Hget.
      destruct (String.eqb_spec mark other), (String.eqb_spec EMPTY other);
        congruence.
    + by rewrite Hold.
Qed.

Lemma only_marks_after_mark (b b' : board) (r c : nat) (mark : string) :
  is_grid b -> only_marks b -> get_cell b r c = Ret EMPTY ->
  mark = "X" \/ mark = "O" -> set_cell b r c mark = Ret b' -> only_marks b'.
Proof.
  intros H Honly Hget Hmark Hset r' c' s Hs.
  destruct (get_cell_lt b r c EMPTY H Hget) as [Hr Hc].
  destruct (set_cell_grid b r c mark H Hr Hc) as (b2 & Hset2 & _ & Hnew & Hold).
  assert (b2 = b') as -> by congruence.
  destruct (decide ((r', c') = (r, c))) as [[= -> ->]|Hp].
  - assert (s = mark) as -> by congruence. tauto.
  - rewrite Hold in Hs by done. by apply (Honly r' c').
Qed.

Lemma tally_after_mark_x (b b' : board) (r c x o : nat) :
  tally b x o -> get_cell b r c = Ret EMPTY -> set_cell b r c "X" = Ret b' ->
  tally b' (S x) o.
Proof.
  intros (H & Honly & HX & HO & Hsum) Hget Hset.
  destruct (empty_cells_after_mark b b' r c "X" H Hget ltac:(discriminate) Hset)
    as (Hg' & Hlen & _).
  destruct (count_after_mark b b' r c "X" H Hget ltac:(discriminate) Hset)
    as (Hcount & Hother).
  split; [done|].
  split; [apply (only_marks_after_mark b b' r c "X"); auto|].
  split; [congruence|]. split.
  - rewrite <- HO. unfold count_mark. f_equal. apply filter_agree.
    intros p _. by apply Hother.
  - unfold n_empty in *. lia.
Qed.

Lemma tally_after_mark_o (b b' : board) (r c x o : nat) :
  tally b x o -> get_cell b r c = Ret EMPTY -> set_cell b r c "O" = Ret b' ->
  tally b' x (S o).
Proof.
  intros (H & Honly & HX & HO & Hsum) Hget Hset.
  destruct (empty_cells_after_mark b b' r c "O" H Hget ltac:(discriminate) Hset)
    as (Hg' & Hlen & _).
  destruct (count_after_mark b b' r c "O" H Hget ltac:(discriminate) Hset)
    as (Hcount & Hother).
  split; [done|].
  split; [apply (only_marks_after_mark b b' r c "O"); auto|].
  split; [|split; [congruence|]].
  - rewrite <- HX. unfold count_mark. f_equal. apply filter_agree.
    intros p _. by apply Hother.
  - unfold n_empty in *. lia.
Qed.

Lemma tally_blank : tally blank 0 0.
Proof.
  split; [apply cells_is_grid|]. split; [|by repeat split].
  intros r c s Hs. left.
  destruct r as [|[|[|r]]]; [| | |discriminate];
    (destruct c as [|[|[|c]]]; [| | |discriminate]); by injection Hs.
Qed.

(** A line of [mark] takes three cells. *)
Lemma line_needs_three (b : board) (mark : string) :
  is_grid b -> check_for_win b mark = Ret true -> 3 <= count_mark b mark.
Proof.
  intros H. rewrite (check_for_win_lines b mark H).
  unfold some_line_full, winning_lines, line_full, count_mark, all_cells, range3.
  cbn [existsb forallb seq list_prod List.map List.app List.filter].
  repeat match goal with
         | |- context [holds b mark ?p] =>
             let t := fresh "t" in generalize (holds b mark p); intros t
         end.
  repeat match goal with t : bool |- _ => destruct t end;
    simpl; intros Hw; try discriminate Hw; lia.
Qed.

Lemma get_player_move_suffix (b : board) (stdin rest : list input_line)
    (r c : nat) :
  get_player_move b stdin = Ret (r, c, rest) ->
  exists consumed, stdin = (consumed ++ rest)%list /\ 1 <= length consumed.
Proof.
  induction stdin as [|l stdin IH]; simpl; [discriminate|].
  assert (get_player_move b stdin = Ret (r, c, rest) ->
          exists consumed, l :: stdin = (consumed ++ rest)%list /\
                           1 <= length consumed) as Hskip.
  { intros Hrec. destruct (IH Hrec) as (consumed & -> & _).
    exists (l :: consumed). split; [reflexivity | simpl; lia]. }
  destruct l as [move|]; [|exact Hskip].
  destruct ((move <? 1)%Z || (move >? 9)%Z); [exact Hskip|].
  destruct (get_cell b (Z.to_nat ((move - 1) / 3)) (Z.to_nat ((move - 1) mod 3)))
    as [s| |]; cbn [bind]; try discriminate.
  destruct (String.eqb s EMPTY); [|exact Hskip].
  intros [= _ _ <-]. exists [Some move]. split; [reflexivity | simpl; lia].
Qed.

(** What the loop keeps: as many X as O at its top, one X more after the
    player's move; every pass reads at least one line for the X it writes. *)
Lemma play_loop_tally (fuel : nat) :
  forall (b b' : board) (stdin rest : list input_line) (rnd : nat -> nat)
         (n : nat) (score : Z),
    tally b n n ->
    play_loop fuel b stdin rnd = Ret (score, b', rest) ->
    exists x o consumed,
      tally b' x o /\ stdin = (consumed ++ rest)%list /\
      x <= n + length consumed /\
      ((score = 1%Z /\ x = S o) \/ (score = (-1)%Z /\ x = o) \/
       (score = 0%Z /\ x = 5 /\ o = 4)).
Proof.
  induction fuel as [|fuel IH]; intros b b' stdin rest rnd n score Ht;
    simpl; [discriminate|].
  assert (is_grid b) as H by apply Ht.
  destruct (player_turn b stdin) as [[[fl b1] rest1]| |] eqn:Hp;
    cbn [bind]; try discriminate.
  destruct (player_turn_inv b b1 stdin rest1 fl H Hp)
    as (r & c & Hmv & Hget & Hset & Hg1 & won & full & Hwon & Hfull & Hv).
  destruct (get_player_move_suffix b stdin rest1 r c Hmv) as (cons1 & -> & Hlen1).
  pose proof (tally_after_mark_x b b1 r c n n Ht Hget Hset) as Ht1.
  destruct fl as [v|].
  - intros [= <- <- <-]. exists (S n), n, cons1.
    split; [done|]. split; [done|]. split; [lia|]. symmetry in Hv.
    destruct (verdict_return _ _ _ _ Hv) as [[_ ->]|(_ & -> & ->)]; [by left|].
    right. right. apply (draw_iff_no_empty b1 Hg1) in Hfull.
    destruct Ht1 as (_ & _ & _ & _ & Hsum). lia.
  - symmetry in Hv. apply verdict_continue in Hv as [-> ->].
    destruct (computer_turn b1 (rnd 0)) as [[fl b2]| |] eqn:Hc;
      cbn [bind]; try discriminate.
    destruct (computer_turn_inv b1 b2 (rnd 0) fl Hg1 Hc)
      as [(_ & Hfull1 & _)|(r2 & c2 & _ & Hget2 & Hset2 & Hg2 & won2 & full2
                            & Hwon2 & Hfull2 & Hv2)]; [congruence|].
    pose proof (tally_after_mark_o b1 b2 r2 c2 (S n) n Ht1 Hget2 Hset2) as Ht2.
    destruct fl as [v|].
    + intros [= <- <- <-]. exists (S n), (S n), cons1.
      split; [done|]. split; [done|]. split; [lia|]. symmetry in Hv2.
      destruct (verdict_return _ _ _ _ Hv2) as [[_ ->]|(_ & -> & ->)];
        [right; by left|].
      exfalso. apply (draw_iff_no_empty b2 Hg2) in Hfull2.
      destruct Ht2 as (_ & _ & _ & _ & Hsum). lia.
    + intros Hloop.
      destruct (IH b2 b' rest1 rest (fun i => rnd (S i)) (S n) score Ht2 Hloop)
        as (x & o & cons2 & Ht' & -> & Hx & Hscore).
      exists x, o, (cons1 ++ cons2)%list.
      split; [done|]. split; [by rewrite <- app_assoc|].
      split; [rewrite length_app; lia | done].
Qed.

(** X3. A round on a 3x3 board leaves a 3x3 board whose cells are [' '], ['X']
    or ['O'].  When the player has won there is one X more than O, when the
    computer has won there are as many X as O, and a draw leaves five X and
    four O. *)
Theorem round_leaves_balanced_board (b b' : board) (fuel : nat)
    (stdin rest : list input_line) (rnd : nat -> nat) (score : Z) :
  is_grid b ->
  play_game fuel b stdin rnd = Ret (score, b', rest) ->
  is_grid b' /\
  (forall r c s, get_cell b' r c = Ret s -> s = " " \/ s = "X" \/ s = "O") /\
  count_mark b' "X" + count_mark b' "O" + count_mark b' " " = 9 /\
  (score = 1%Z -> count_mark b' "X" = S (count_mark b' "O")) /\
  (score = (-1)%Z -> count_mark b' "X" = count_mark b' "O") /\
  (score = 0%Z -> count_mark b' "X" = 5 /\ count_mark b' "O" = 4).
Proof.
  intros H Hret. rewrite (play_game_unfold fuel b stdin rnd H) in Hret.
  destruct (play_loop_tally fuel blank b' stdin rest rnd 0 score tally_blank Hret)
    as (x & o & consumed & (Hg & Honly & HX & HO & Hsum) & _ & _ & Hscore).
  split; [done|]. split; [exact Honly|]. split; [by rewrite HX, HO|].
  rewrite HX, HO.
  destruct Hscore as [[-> ->]|[[-> ->]|(-> & -> & ->)]];
    (split; [|split]); intros; try discriminate; auto.
Qed.

Lemma drawn_round_has_five_x :
  is_grid numbered /\
  exists b' rest,
    play_game 5 numbered [Some 1; Some 3; Some 4; Some 8; Some 9]%Z
      (fun n => nth n [0; 1; 0; 0] 0) = Ret (0%Z, b', rest) /\
    count_mark b' "X" = 5 /\ count_mark b' "O" = 4.
Proof.
  split; [apply cells_is_grid|].
  eexists _, _. split; [vm_compute; reflexivity|].
  apply (round_leaves_balanced_board numbered _ 5
           [Some 1; Some 3; Some 4; Some 8; Some 9]%Z _
           (fun n => nth n [0; 1; 0; 0] 0) 0
           (cells_is_grid "1" "2" "3" "4" "5" "6" "7" "8" "9")
           ltac:(vm_compute; reflexivity)).
  reflexivity.
Defined.

Lemma at_loop_top_tally (b0 b : board) :
  is_grid b0 -> at_loop_top b0 b -> exists n, tally b n n.
Proof.
  intros H0. induction 1 as [b Hinit|b b1 b2 stdin rest k _ IH Hp Hc].
  - rewrite (initialise_board_grid b0 H0) in Hinit. injection Hinit as <-.
    exists 0. apply tally_blank.
  - destruct IH as [n Ht]. assert (is_grid b) as H by apply Ht.
    destruct (player_turn_inv b b1 stdin rest Continue H Hp)
      as (r & c & _ & Hget & Hset & Hg1 & won & full & _ & Hfull & Hv).
    symmetry in Hv. apply verdict_continue in Hv as [-> ->].
    pose proof (tally_after_mark_x b b1 r c n n Ht Hget Hset) as Ht1.
    destruct (computer_turn_inv b1 b2 k Continue Hg1 Hc)
      as [(_ & Hfull1 & _)|(r2 & c2 & _ & Hget2 & Hset2 & _)]; [congruence|].
    exists (S n). by apply (tally_after_mark_o b1 b2 r2 c2 (S n) n).
Qed.

(** X4. In a round on a 3x3 board the computer never plays the last cell:
    after its move the board still has an empty cell, so the draw test that
    follows the computer's move never succeeds and a draw is only ever
    declared after a move of the player. *)
Theorem computer_never_fills_board (b0 b1 b2 : board) (k : nat) (fl : flow) :
  is_grid b0 -> computer_called b0 b1 ->
  computer_turn b1 k = Ret (fl, b2) ->
  check_for_draw b2 = Ret false /\ fl <> Return 0 /\
  exists r c, get_cell b2 r c = Ret EMPTY.
Proof.
  intros H0 (b & stdin & rest & Htop & Hp) Hc.
  destruct (at_loop_top_tally b0 b H0 Htop) as [n Ht].
  assert (is_grid b) as H by apply Ht.
  destruct (player_turn_inv b b1 stdin rest Continue H Hp)
    as (r & c & _ & Hget & Hset & Hg1 & won & full & _ & Hfull & Hv).
  symmetry in Hv. apply verdict_continue in Hv as [-> ->].
  pose proof (tally_after_mark_x b b1 r c n n Ht Hget Hset) as Ht1.
  destruct (computer_turn_inv b1 b2 k fl Hg1 Hc)
    as [(_ & Hfull1 & _)|(r2 & c2 & _ & Hget2 & Hset2 & Hg2 & won2 & full2
                          & _ & Hfull2 & Hv2)]; [congruence|].
  pose proof (tally_after_mark_o b1 b2 r2 c2 (S n) n Ht1 Hget2 Hset2)
    as (_ & _ & _ & _ & Hsum).
  assert (full2 = false) as ->.
  { destruct full2; [|done].
    apply (draw_iff_no_empty b2 Hg2) in Hfull2. lia. }
  split; [done|]. split.
  - rewrite Hv2. by destruct won2.
  - by apply draw_false_empty_cell.
Qed.

Lemma computer_leaves_a_cell :
  is_grid numbered /\
  computer_called numbered [[" "; " "; " "]; [" "; "X"; " "]; [" "; " "; " "]] /\
  check_for_draw [["O"; " "; " "]; [" "; "X"; " "]; [" "; " "; " "]] = Ret false.
Proof.
  assert (computer_called numbered
            [[" "; " "; " "]; [" "; "X"; " "]; [" "; " "; " "]]) as Hcalled.
  { exists blank, [Some 5%Z], []. split; [by apply top_first | reflexivity]. }
  split; [apply cells_is_grid|]. split; [exact Hcalled|].
  apply (computer_never_fills_board numbered _ _ 0 Continue
           (cells_is_grid "1" "2" "3" "4" "5" "6" "7" "8" "9") Hcalled).
  reflexivity.
Defined.

(** X5. No round ends before the player's third move: a round that returns
    has read a prefix of the input of at least three lines, and of at least
    five lines when it is drawn; the lines after that prefix are left for
    the caller. *)
Theorem round_reads_three_lines (b b' : board) (fuel : nat)
    (stdin rest : list input_line) (rnd : nat -> nat) (score : Z) :
  is_grid b ->
  play_game fuel b stdin rnd = Ret (score, b', rest) ->
  exists consumed,
    stdin = (consumed ++ rest)%list /\ 3 <= length consumed /\
    (score = 0%Z -> 5 <= length consumed).
Proof.
  intros H Hret. rewrite (play_game_unfold fuel b stdin rnd H) in Hret.
  destruct (play_loop_tally fuel blank b' stdin rest rnd 0 score tally_blank Hret)
    as (x & o & consumed & (Hg & _ & HX & HO & _) & Hstdin & Hlen & Hscore).
  destruct (play_loop_result fuel blank b' stdin rest rnd score
              (cells_is_grid _ _ _ _ _ _ _ _ _) no_winner_blank Hret)
    as [_ Hend].
  exists consumed. split; [done|].
  destruct Hscore as [[-> ->]|[[-> ->]|(-> & -> & ->)]].
  - destruct Hend as [(_ & Hwin & _)|[(? & _)|(? & _)]]; try discriminate.
    pose proof (line_needs_three b' "X" Hg Hwin). split; [lia | discriminate].
  - destruct Hend as [(? & _)|[(_ & Hwin & _)|(? & _)]]; try discriminate.
    pose proof (line_needs_three b' "O" Hg Hwin). split; [lia | discriminate].
  - split; intros; lia.
Qed.

Lemma quickest_win_reads_three :
  is_grid numbered /\
  exists consumed,
    [Some 1; Some 2; Some 3; Some 4]%Z = (consumed ++ [Some 4%Z])%list /\
    3 <= length consumed.
Proof.
  split; [apply cells_is_grid|].
  destruct (round_reads_three_lines numbered _ 5 [Some 1; Some 2; Some 3; Some 4]%Z
              _ (fun _ => 3) 1
              (cells_is_grid "1" "2" "3" "4" "5" "6" "7" "8" "9")
              ltac:(vm_compute; reflexivity))
    as (consumed & Heq & Hlen & _).
  exists consumed. by split.
Defined.

Lemma play_loop_draws (fuel : nat) :
  forall (b : board) (stdin : list input_line) (rnd rnd' : nat -> nat) (n j : nat),
    tally b n n -> n + j = 4 ->
    (forall i, i < j -> rnd i = rnd' i) ->
    play_loop fuel b stdin rnd = play_loop fuel b stdin rnd'.
Proof.
  induction fuel as [|fuel IH]; intros b stdin rnd rnd' n j Ht Hj Hagree;
    simpl; [reflexivity|].
  assert (is_grid b) as H by apply Ht.
  destruct (player_turn b stdin) as [[[fl b1] rest1]| |] eqn:Hp;
    cbn [bind]; try reflexivity.
  destruct fl as [v|]; [reflexivity|].
  destruct (player_turn_inv b b1 stdin rest1 Continue H Hp)
    as (r & c & _ & Hget & Hset & Hg1 & won & full & _ & Hfull & Hv).
  symmetry in Hv. apply verdict_continue in Hv as [-> ->].
  pose proof (tally_after_mark_x b b1 r c n n Ht Hget Hset) as Ht1.
  assert (0 < j) as Hpos.
  { destruct (Nat.eq_dec j 0) as [->|]; [|lia].
    assert (check_for_draw b1 = Ret true); [|congruence].
    apply (draw_iff_no_empty b1 Hg1).
    destruct Ht1 as (_ & _ & _ & _ & Hsum). lia. }
  rewrite <- (Hagree 0 Hpos).
  destruct (computer_turn b1 (rnd 0)) as [[fl b2]| |] eqn:Hc;
    cbn [bind]; try reflexivity.
  destruct fl as [v|]; [reflexivity|].
  destruct (computer_turn_inv b1 b2 (rnd 0) Continue Hg1 Hc)
    as [(_ & Hfull1 & _)|(r2 & c2 & _ & Hget2 & Hset2 & _)]; [congruence|].
  apply (IH b2 rest1 _ _ (S n) (j - 1)).
  - by apply (tally_after_mark_o b1 b2 r2 c2 (S n) n).
  - lia.
  - intros i Hi. apply Hagree. lia.
Qed.

(** X6. A round asks the random generator for at most four numbers: two
    generators that agree on their first four draws give the same round. *)
Theorem round_uses_four_draws (b : board) (fuel : nat) (stdin : list input_line)
    (rnd rnd' : nat -> nat) :
  is_grid b ->
  (forall i, i < 4 -> rnd i = rnd' i) ->
  play_game fuel b stdin rnd = play_game fuel b stdin rnd'.
Proof.
  intros H Hagree. rewrite !(play_game_unfold fuel b stdin _ H).
  by apply (play_loop_draws fuel blank stdin rnd rnd' 0 4 tally_blank).
Qed.

Lemma later_draws_do_not_matter :
  is_grid numbered /\
  play_game 5 numbered [Some 1; Some 3; Some 4; Some 8; Some 9]%Z
    (fun n => nth n [0; 1; 0; 0; 7; 7] 2)
  = play_game 5 numbered [Some 1; Some 3; Some 4; Some 8; Some 9]%Z
      (fun n => nth n [0; 1; 0; 0] 0).
Proof.
  split; [apply cells_is_grid|].
  apply (round_uses_four_draws numbered 5 _ _ _
           (cells_is_grid "1" "2" "3" "4" "5" "6" "7" "8" "9")).
  intros i Hi.
  destruct i as [|[|[|[|i]]]]; [reflexivity..|lia].
Defined.

(** X7. Rounds do not depend on one another through the board: the board a
    round leaves is a 3x3 board again, and a round played on it goes exactly
    as it would on the board the first round was given. *)
Theorem next_round_starts_afresh (b b' : board) (fuel : nat)
    (stdin rest : list input_line) (rnd : nat -> nat) (score : Z) :
  is_grid b ->
  play_game fuel b stdin rnd = Ret (score, b', rest) ->
  is_grid b' /\
  forall fuel2 stdin2 rnd2,
    play_game fuel2 b' stdin2 rnd2 = play_game fuel2 b stdin2 rnd2.
Proof.
  intros H Hret. rewrite (play_game_unfold fuel b stdin rnd H) in Hret.
  destruct (play_loop_result fuel blank b' stdin rest rnd score
              (cells_is_grid _ _ _ _ _ _ _ _ _) no_winner_blank Hret)
    as [Hg' _].
  split; [done|]. intros fuel2 stdin2 rnd2.
  by rewrite (play_game_unfold fuel2 b' stdin2 rnd2 Hg'),
             (play_game_unfold fuel2 b stdin2 rnd2 H).
Qed.

Lemma second_round_like_first :
  is_grid numbered /\
  play_game 5 [["X"; "X"; "X"]; [" "; "O"; " "]; ["O"; " "; " "]]
    [Some 5; Some 1; Some 6; Some 7; Some 8]%Z (fun _ => 0)
  = play_game 5 numbered [Some 5; Some 1; Some 6; Some 7; Some 8]%Z (fun _ => 0).
Proof.
  split; [apply cells_is_grid|].
  apply (next_round_starts_afresh numbered _ 5 [Some 1; Some 2; Some 3]%Z []
           (fun _ => 3) 1 (cells_is_grid "1" "2" "3" "4" "5" "6" "7" "8" "9")
           ltac:(vm_compute; reflexivity)).
Defined.

(** X8. The computer can play every empty cell and nothing else.  On a 3x3
    board with [n] empty cells, each empty cell is what [choose_computer_move]
    returns for exactly one index below [n] into its list of empty cells, so
    no cell has more weight than another; every cell returned is empty; and
    the pair [(None, None)] is returned exactly when the board is full. *)
Theorem choose_computer_move_enumerates (b : board) :
  is_grid b ->
  (forall r c, get_cell b r c = Ret EMPTY ->
     exists k, k < n_empty b /\
       choose_computer_move b k = Ret (Some (r, c)) /\
       forall k', k' < n_empty b ->
         choose_computer_move b k' = Ret (Some (r, c)) -> k' = k) /\
  (forall k r c, choose_computer_move b k = Ret (Some (r, c)) ->
     get_cell b r c = Ret EMPTY) /\
  (forall k, choose_computer_move b k = Ret None <-> check_for_draw b = Ret true).
Proof.
  intros H. split; [|split].
  - unfold choose_computer_move, n_empty.
    rewrite (empty_cells_grid b H). cbn [bind].
    assert (NoDup (List.filter (holds b EMPTY) all_cells)) as Hnd.
    { apply NoDup_ListNoDup, List.NoDup_filter, NoDup_ListNoDup, NoDup_all_cells. }
    pose proof (fun r c => in_empty_cells b r c H) as Hin.
    destruct (List.filter (holds b EMPTY) all_cells) as [|c0 cells] eqn:E.
    { intros r c Hget. apply Hin in Hget. destruct Hget. }
    set (l := c0 :: cells) in *.
    intros r c Hget. apply Hin in Hget.
    destruct (In_nth l (r, c) c0 Hget) as (k & Hk & Hnth).
    exists k. split; [done|]. split.
    + by rewrite (Nat.mod_small k (length l) Hk), Hnth.
    + intros k' Hk'. rewrite (Nat.mod_small k' (length l) Hk').
      intros Heq. assert (nth k' l c0 = (r, c)) as Hnth' by congruence.
      apply NoDup_ListNoDup in Hnd.
      apply (proj1 (List.NoDup_nth l c0) Hnd k' k Hk' Hk). congruence.
  - intros k r c Hmv.
    destruct (choose_computer_move_grid b k H)
      as [[_ Hnone]|(_ & r' & c' & Hsome & Hget)]; [congruence|].
    assert (r' = r /\ c' = c) as [-> ->] by (split; congruence). done.
  - intros k.
    destruct (choose_computer_move_grid b k H)
      as [[Hfull Hnone]|(Hfull & r' & c' & Hsome & _)].
    + by split.
    + split; intros Heq; congruence.
Qed.

Lemma two_cells_two_draws :
  is_grid [["X"; "O"; "X"]; [" "; "O"; "O"]; ["O"; "X"; " "]] /\
  exists k, k < 2 /\
    choose_computer_move [["X"; "O"; "X"]; [" "; "O"; "O"]; ["O"; "X"; " "]] k
    = Ret (Some (2, 2)).
Proof.
  split; [apply cells_is_grid|].
  destruct (choose_computer_move_enumerates
              [["X"; "O"; "X"]; [" "; "O"; "O"]; ["O"; "X"; " "]]
              (cells_is_grid "X" "O" "X" " " "O" "O" "O" "X" " "))
    as (Hall & _).
  destruct (Hall 2 2 eq_refl) as (k & Hk & Hmv & _).
  exists k. split; [exact Hk | exact Hmv].
Defined.

Lemma some_line_full_agree (ls : list (list (nat * nat))) (b b' : board)
    (mark : string) :
  (forall p, holds b' mark p = holds b mark p) ->
  some_line_full ls b' mark = some_line_full ls b mark.
Proof.
  intros Hagree. unfold some_line_full, line_full.
  induction ls as [|l ls IH]; simpl; [reflexivity|]. rewrite IH. f_equal.
  induction l as [|p l IHl]; simpl; [reflexivity|]. by rewrite Hagree, IHl.
Qed.

(** X9. A mark written into an empty cell of a 3x3 board changes nothing for
    the other player: whether another symbol (other than [' ']) has a line
    is the same before and after; and a line the mover already had is still
    there. *)
Theorem move_keeps_lines (b b' : board) (r c : nat) (mark : string) :
  is_grid b -> get_cell b r c = Ret EMPTY -> mark <> EMPTY ->
  set_cell b r c mark = Ret b' ->
  (forall other, other <> mark -> other <> EMPTY ->
     check_for_win b' other = check_for_win b other) /\
  (check_for_win b mark = Ret true -> check_for_win b' mark = Ret true).
Proof.
  intros H Hget Hmark Hset.
  destruct (empty_cells_after_mark b b' r c mark H Hget Hmark Hset) as (Hg' & _).
  destruct (count_after_mark b b' r c mark H Hget Hmark Hset) as (_ & Hother).
  split.
  - intros other Hne Hne'.
    rewrite (check_for_win_lines b' other Hg'), (check_for_win_lines b other H).
    f_equal. apply some_line_full_agree. by apply Hother.
  - rewrite (check_for_win_lines b' mark Hg'), (check_for_win_lines b mark H).
    intros Hwin. assert (some_line_full winning_lines b mark = true) as Hw
      by congruence.
    f_equal. apply some_line_full_true.
    apply some_line_full_true in Hw as (l & Hl & Hfull).
    exists l. split; [done|]. intros [r' c'] Hp.
    specialize (Hfull (r', c') Hp). simpl in *.
    destruct (get_cell_lt b r c EMPTY H Hget) as [Hr Hc].
    destruct (set_cell_grid b r c mark H Hr Hc) as (b2 & Hset2 & _ & _ & Hold).
    assert (b2 = b') as -> by congruence.
    rewrite Hold; [done|]. intros [= -> ->]. congruence.
Qed.

Lemma o_move_keeps_x_line :
  is_grid [["X"; "X"; "X"]; [" "; "O"; " "]; ["O"; " "; " "]] /\
  check_for_win [["X"; "X"; "X"]; [" "; "O"; " "]; ["O"; " "; "O"]] "X"
  = check_for_win [["X"; "X"; "X"]; [" "; "O"; " "]; ["O"; " "; " "]] "X".
Proof.
  split; [apply cells_is_grid|].
  destruct (move_keeps_lines [["X"; "X"; "X"]; [" "; "O"; " "]; ["O"; " "; " "]]
              [["X"; "X"; "X"]; [" "; "O"; " "]; ["O"; " "; "O"]] 2 2 "O"
              (cells_is_grid "X" "X" "X" " " "O" " " "O" " " " ")
              eq_refl ltac:(discriminate) eq_refl) as [Hother _].
  apply Hother; discriminate.
Defined.

(** ** The menu *)

Lemma lower_char_choice (a : ascii) (x : ascii) :
  In x ["1"; "2"; "3"; "q"]%char -> lower_char a = x ->
  a = x \/ (x = "q"%char /\ a = "Q"%char).
Proof.
  intros Hx Ha.
  destruct a as [[] [] [] [] [] [] [] []]; vm_compute in Ha; subst x;
    vm_compute in Hx; intuition (try discriminate; auto).
Qed.

Lemma accepted_iff (typed : string) :
  existsb (String.eqb (lower typed)) ["1"; "2"; "3"; "q"] = true <->
  In typed ["1"; "2"; "3"; "q"; "Q"].
Proof.
  split.
  - intros Hex. apply existsb_exists in Hex as (x & Hx & Heq).
    apply String.eqb_eq in Heq.
    destruct typed as [|a [|a' typed]].
    + simpl in Heq. subst x. simpl in Hx. intuition discriminate.
    + simpl in Heq.
      assert (exists y, x = String y "" /\ In y ["1"; "2"; "3"; "q"]%char)
        as (y & -> & Hy).
      { simpl in Hx. destruct Hx as [<-|[<-|[<-|[<-|[]]]]];
          eexists; (split; [reflexivity|]); simpl; tauto. }
      injection Heq as Heq.
      destruct (lower_char_choice a y Hy Heq) as [->|[-> ->]].
      * simpl in Hy. simpl. intuition (subst; auto).
      * simpl. tauto.
    + simpl in Heq. simpl in Hx.
      destruct Hx as [<-|[<-|[<-|[<-|[]]]]]; discriminate.
  - simpl. intros [<-|[<-|[<-|[<-|[<-|[]]]]]]; reflexivity.
Qed.

(** X10. [menu] returns the first line of the input that is one of [1], [2],
    [3], [q] or [Q], in lower case, and leaves the lines after it unread; so
    what it returns is always one of the four choices.  The lines before are
    ignored, a line with a blank around the choice among them.  When no line
    is a choice [menu] ends only with the input. *)
Theorem menu_returns_first_choice (stdin rest : list string) (choice : string) :
  (menu stdin = Ret (choice, rest) <->
   exists skipped typed,
     stdin = (skipped ++ typed :: rest)%list /\
     Forall (fun l => ~ In l ["1"; "2"; "3"; "q"; "Q"]) skipped /\
     In typed ["1"; "2"; "3"; "q"; "Q"] /\ choice = lower typed /\
     In choice ["1"; "2"; "3"; "q"]) /\
  (menu stdin = Raise EOFError <->
   Forall (fun l => ~ In l ["1"; "2"; "3"; "q"; "Q"]) stdin).
Proof.
  split.
  - split.
    + revert rest. induction stdin as [|l stdin IH]; intros rest; cbn [menu];
        [discriminate|].
      destruct (existsb (String.eqb (lower l)) ["1"; "2"; "3"; "q"]) eqn:E.
      * intros [= <- <-]. exists [], l. split; [reflexivity|].
        split; [constructor|]. split; [by apply accepted_iff|].
        split; [reflexivity|].
        apply existsb_exists in E as (x & Hx & Heq).
        apply String.eqb_eq in Heq. by rewrite Heq.
      * intros Hrec.
        destruct (IH rest Hrec) as (skipped & typed & -> & Hall & Hrest).
        exists (l :: skipped), typed. split; [reflexivity|].
        split; [|exact Hrest]. constructor; [|done].
        intros Hin. apply accepted_iff in Hin. congruence.
    + intros (skipped & typed & -> & Hall & Htyped & -> & _).
      induction Hall as [|l skipped Hl _ IH]; cbn [menu app].
      * apply accepted_iff in Htyped. by rewrite Htyped.
      * destruct (existsb (String.eqb (lower l)) ["1"; "2"; "3"; "q"]) eqn:E;
          [|exact IH].
        apply accepted_iff in E. by destruct Hl.
  - induction stdin as [|l stdin IH]; cbn [menu].
    + split; [constructor|reflexivity].
    + destruct (existsb (String.eqb (lower l)) ["1"; "2"; "3"; "q"]) eqn:E.
      * split; [discriminate|]. intros Hall. inversion Hall as [|? ? Hl _]; subst.
        apply accepted_iff in E. by destruct Hl.
      * rewrite IH. split.
        -- intros Hall. constructor; [|done].
           intros Hin. apply accepted_iff in Hin. congruence.
        -- intros Hall. by inversion Hall.
Qed.

Example menu_ignores_padded_choice :
  menu [" 1"; "play"; "Q"; "2"] = Ret ("q", ["2"]).
Proof. reflexivity. Qed.

(** ** What is printed *)

Lemma one_char (s : string) : String.length s = 1 -> exists a, s = String a "".
Proof.
  destruct s as [|a [|a' s]]; simpl; try discriminate. intros _. by exists a.
Qed.

(** X11. The picture of a 3x3 board whose cells are single characters: nine
    calls of [print], every line but the two blank ones as wide as the
    border, and the mark of cell [(r, c)] at column [4c + 2] of the line
    printed by call [2r + 2], counting from 0.  Two such boards with the same
    picture are the same board. *)
Theorem draw_board_shows_cells (b : board) :
  is_grid b -> one_char_cells b ->
  length (draw_board b) = 9 /\
  (forall l, In l (draw_board b) -> l = newline \/ String.length l = 13) /\
  (forall r c s, get_cell b r c = Ret s ->
     exists l, nth_error (draw_board b) (2 * r + 2) = Some l /\
               String.substring (4 * c + 2) 1 l = s) /\
  (forall b', is_grid b' -> one_char_cells b' ->
     draw_board b' = draw_board b -> b' = b).
Proof.
  intros H Hone. grid b H.
  destruct (one_char a1 (Hone 0 0 a1 eq_refl)) as [x1 ->].
  destruct (one_char a2 (Hone 0 1 a2 eq_refl)) as [x2 ->].
  destruct (one_char a3 (Hone 0 2 a3 eq_refl)) as [x3 ->].
  destruct (one_char b1 (Hone 1 0 b1 eq_refl)) as [y1 ->].
  destruct (one_char b2 (Hone 1 1 b2 eq_refl)) as [y2 ->].
  destruct (one_char b3 (Hone 1 2 b3 eq_refl)) as [y3 ->].
  destruct (one_char c1 (Hone 2 0 c1 eq_refl)) as [z1 ->].
  destruct (one_char c2 (Hone 2 1 c2 eq_refl)) as [z2 ->].
  destruct (one_char c3 (Hone 2 2 c3 eq_refl)) as [z3 ->].
  split; [reflexivity|]. split; [|split].
  - intros l Hl. simpl in Hl.
    repeat destruct Hl as [<-|Hl]; try destruct Hl; auto.
  - intros r c s Hs.
    destruct r as [|[|[|r]]]; [| | |discriminate];
      (destruct c as [|[|[|c]]]; [| | |discriminate]);
      injection Hs as <-; eexists; split; reflexivity.
  - intros b' H' Hone' Heq. grid b' H'.
    destruct (one_char a1 (Hone' 0 0 a1 eq_refl)) as [x1' ->].
    destruct (one_char a2 (Hone' 0 1 a2 eq_refl)) as [x2' ->].
    destruct (one_char a3 (Hone' 0 2 a3 eq_refl)) as [x3' ->].
    destruct (one_char b1 (Hone' 1 0 b1 eq_refl)) as [y1' ->].
    destruct (one_char b2 (Hone' 1 1 b2 eq_refl)) as [y2' ->].
    destruct (one_char b3 (Hone' 1 2 b3 eq_refl)) as [y3' ->].
    destruct (one_char c1 (Hone' 2 0 c1 eq_refl)) as [z1' ->].
    destruct (one_char c2 (Hone' 2 1 c2 eq_refl)) as [z2' ->].
    destruct (one_char c3 (Hone' 2 2 c3 eq_refl)) as [z3' ->].
    vm_compute in Heq. by injection Heq as -> -> -> -> -> -> -> -> ->.
Qed.

Lemma corner_is_drawn :
  is_grid x_in_corner /\ one_char_cells x_in_corner /\
  exists l, nth_error (draw_board x_in_corner) 2 = Some l /\
            String.substring 2 1 l = "X".
Proof.
  assert (one_char_cells x_in_corner) as Hone.
  { intros r c s Hs.
    destruct r as [|[|[|r]]]; [| | |discriminate];
      (destruct c as [|[|[|c]]]; [| | |discriminate]); by injection Hs as <-. }
  split; [apply cells_is_grid|]. split; [exact Hone|].
  destruct (draw_board_shows_cells x_in_corner
              (cells_is_grid "X" " " " " " " " " " " " " " " " ") Hone)
    as (_ & _ & Hshow & _).
  apply (Hshow 0 0 "X" eq_refl).
Defined.

(** *** The order of the leaderboard *)

Lemma insert_by_score_perm (x : string * Z) (l : list (string * Z)) :
  Permutation (insert_by_score x l) (x :: l).
Proof.
  induction l as [|y l IH]; simpl; [reflexivity|].
  destruct (snd x <? snd y)%Z; [|reflexivity].
  rewrite IH. apply perm_swap.
Qed.

Lemma insert_by_score_sorted (x : string * Z) (l : list (string * Z)) :
  StronglySorted not_below l -> StronglySorted not_below (insert_by_score x l).
Proof.
  induction 1 as [|y l Hsorted IH Hy]; simpl.
  - constructor; constructor.
  - destruct (Z.ltb_spec (snd x) (snd y)) as [Hlt|Hge].
    + constructor; [exact IH|].
      apply List.Forall_forall. intros z Hz.
      apply (Permutation_in _ (insert_by_score_perm x l)) in Hz.
      destruct Hz as [<-|Hz]; [unfold not_below; lia|].
      by apply (proj1 (List.Forall_forall _ _) Hy).
    + constructor; [by constructor|].
      constructor; [exact Hge|].
      apply List.Forall_forall. intros z Hz.
      apply (proj1 (List.Forall_forall _ _) Hy) in Hz. unfold not_below in *. lia.
Qed.

Lemma insert_by_score_stable (v : Z) (x : string * Z) (l : list (string * Z)) :
  with_score v (insert_by_score x l) = with_score v (x :: l).
Proof.
  unfold with_score. induction l as [|y l IH]; [reflexivity|].
  cbn [insert_by_score].
  destruct (Z.ltb_spec (snd x) (snd y)) as [Hlt|Hge]; [|reflexivity].
  cbn [List.filter] in *. rewrite IH.
  destruct (Z.eqb_spec (snd x) v) as [Hx|Hx]; [|reflexivity].
  destruct (Z.eqb_spec (snd y) v) as [Hy|Hy]; [lia | reflexivity].
Qed.

Lemma sorted_leaders_perm (items : list (string * Z)) :
  Permutation (sorted_leaders items) items.
Proof.
  induction items as [|x items IH]; simpl; [reflexivity|].
  rewrite insert_by_score_perm. by apply perm_skip.
Qed.

Lemma sorted_leaders_sorted (items : list (string * Z)) :
  StronglySorted not_below (sorted_leaders items).
Proof.
  induction items as [|x items IH]; simpl; [constructor|].
  by apply insert_by_score_sorted.
Qed.

Lemma sorted_leaders_stable (v : Z) (items : list (string * Z)) :
  with_score v (sorted_leaders items) = with_score v items.
Proof.
  induction items as [|x items IH]; [reflexivity|].
  cbn [sorted_leaders fold_right]. rewrite insert_by_score_stable.
  unfold with_score in *. cbn [List.filter].
  fold (sorted_leaders items). by rewrite IH.
Qed.

(** X12. [display_leaderboard] prints a heading, one line for every entry and
    a closing blank line.  The entries come with the scores descending, and
    entries with the same score in the order they have in the leaderboard;
    none is lost or repeated. *)
Theorem leaderboard_is_sorted (items : list (string * Z)) :
  Permutation (sorted_leaders items) items /\
  StronglySorted not_below (sorted_leaders items) /\
  (forall v, with_score v (sorted_leaders items) = with_score v items) /\
  display_leaderboard items
  = ((newline ++ "Leaderboard:")%string
       :: List.map entry_line (sorted_leaders items) ++ [newline])%list /\
  length (display_leaderboard items) = length items + 2.
Proof.
  split; [apply sorted_leaders_perm|].
  split; [apply sorted_leaders_sorted|].
  split; [intros v; apply sorted_leaders_stable|].
  split; [reflexivity|].
  unfold display_leaderboard. rewrite List.length_app. cbn [length].
  rewrite List.length_map, (Permutation_length (sorted_leaders_perm items)). lia.
Qed.

(** Two descending lists with the same entries of every score, in the same
    order, are equal. *)
Lemma sorted_stable_unique (l1 : list (string * Z)) :
  forall l2,
    StronglySorted not_below l1 -> StronglySorted not_below l2 ->
    (forall v, with_score v l1 = with_score v l2) -> l1 = l2.
Proof.
  induction l1 as [|a l1 IH]; intros l2 Hs1 Hs2 Hsame.
  - destruct l2 as [|b l2]; [reflexivity|].
    specialize (Hsame (snd b)). unfold with_score in Hsame. simpl in Hsame.
    rewrite Z.eqb_refl in Hsame. discriminate.
  - destruct l2 as [|b l2].
    { specialize (Hsame (snd a)). unfold with_score in Hsame. simpl in Hsame.
      rewrite Z.eqb_refl in Hsame. discriminate. }
    inversion Hs1 as [|? ? Hs1' Ha]; subst.
    inversion Hs2 as [|? ? Hs2' Hb]; subst.
    assert (forall (x : string * Z) l y, In y (with_score (snd y) (x :: l)) ->
              StronglySorted not_below (x :: l) -> (snd y <= snd x)%Z) as Hmax.
    { intros x l y Hy Hs. unfold with_score in Hy. apply filter_In in Hy as [Hy _].
      inversion Hs as [|? ? _ Hx]; subst.
      destruct Hy as [<-|Hy]; [lia|].
      by apply (proj1 (List.Forall_forall _ _) Hx). }
    assert (snd a = snd b) as Hab.
    { assert (In a (with_score (snd a) (b :: l2))) as Ha2.
      { rewrite <- Hsame. unfold with_score. simpl. rewrite Z.eqb_refl. by left. }
      assert (In b (with_score (snd b) (a :: l1))) as Hb1.
      { rewrite Hsame. unfold with_score. simpl. rewrite Z.eqb_refl. by left. }
      pose proof (Hmax b l2 a Ha2 Hs2). pose proof (Hmax a l1 b Hb1 Hs1). lia. }
    assert (a = b) as ->.
    { specialize (Hsame (snd a)). unfold with_score in Hsame. simpl in Hsame.
      rewrite <- Hab, Z.eqb_refl in Hsame. by injection Hsame. }
    f_equal. apply IH; auto. intros v.
    specialize (Hsame v). unfold with_score in *. simpl in Hsame.
    destruct (snd b =? v)%Z; [by injection Hsame | done].
Qed.

(** X13. The order in which the leaderboard is printed is the only one that is
    descending by score and keeps the entries of equal score in the order
    of the leaderboard. *)
Theorem leaderboard_order_unique (items shown : list (string * Z)) :
  StronglySorted not_below shown ->
  (forall v, with_score v shown = with_score v items) ->
  shown = sorted_leaders items.
Proof.
  intros Hsorted Hsame. apply sorted_stable_unique; [done| |].
  - apply sorted_leaders_sorted.
  - intros v. by rewrite Hsame, sorted_leaders_stable.
Qed.

Lemma ties_keep_their_order :
  StronglySorted not_below [("eve", 10%Z); ("ann", 3%Z); ("cy", 3%Z); ("bob", (-12)%Z)] /\
  [("eve", 10%Z); ("ann", 3%Z); ("cy", 3%Z); ("bob", (-12)%Z)]
  = sorted_leaders [("ann", 3%Z); ("bob", (-12)%Z); ("cy", 3%Z); ("eve", 10%Z)].
Proof.
  assert (StronglySorted not_below
            [("eve", 10%Z); ("ann", 3%Z); ("cy", 3%Z); ("bob", (-12)%Z)])
    as Hsorted.
  { repeat constructor; unfold not_below; simpl; lia. }
  split; [exact Hsorted|].
  apply leaderboard_order_unique; [exact Hsorted|].
  intros v. unfold with_score. cbn [List.filter snd].
  destruct (Z.eqb_spec 10 v), (Z.eqb_spec 3 v), (Z.eqb_spec (-12) v);
    try lia; reflexivity.
Defined.

(** ** Saving more than once, and saving on a file that is no leaderboard *)





Section StoreMore.

Context {pyfloat : Type} (float_add_int : pyfloat -> Z -> result pyfloat).


(** X15. A file that parses, but not to a mapping, is no leaderboard for
    [save_score]: it raises [AttributeError] and writes nothing, whereas a
    file that does not parse at all is replaced by a leaderboard with the
    one new entry.  An entry that is null, a string, a list or a mapping
    makes it raise [TypeError]. *)
Theorem save_score_failures (name : string) (stdin : list string) (score : Z) :
  (forall v : json pyfloat, (forall members, v <> JObject members) ->
     save_score float_add_int score (name :: stdin) (Some (Parses v))
     = Raise AttributeError) /\
  save_score float_add_int score (name :: stdin) (Some Unparsable)
  = Ret (Some (Parses (scores [(name, score)])), stdin) /\
  (forall members old,
     dict_lookup name members = Some old ->
     (old = JNull \/ (exists s, old = JString s) \/ (exists l, old = JArray l) \/
      exists o, old = JObject o) ->
     save_score float_add_int score (name :: stdin) (Some (Parses (JObject members)))
     = Raise TypeError) /\
  save_score float_add_int score [] (Some (Parses (scores []))) = Raise EOFError.
Proof.
  split; [|split; [|split]].
  - intros v Hv. destruct v; try reflexivity. by destruct (Hv members).
  - reflexivity.
  - intros members old Hold Hkind. unfold save_score, load_scores.
    cbn [bind dict_get]. rewrite Hold. cbn [default bind].
    destruct Hkind as [->|[[s ->]|[[l ->]|[o ->]]]]; reflexivity.
  - reflexivity.
Qed.

End StoreMore.


(** After the two saves of the lemma above the tie of the two new names is
    shown in the order of the saves. *)
Example tie_shown_in_order_of_saves :
  display_leaderboard [("ann", 4%Z); ("bob", 3%Z); ("cy", 3%Z)]
  = [(newline ++ "Leaderboard:")%string; "ann: 4"; "bob: 3"; "cy: 3"; newline] /\
  display_leaderboard [("ann", 4%Z); ("cy", 3%Z); ("bob", 3%Z)]
  = [(newline ++ "Leaderboard:")%string; "ann: 4"; "cy: 3"; "bob: 3"; newline].
Proof. split; reflexivity. Qed.

(** ** Boards of other sizes *)

(** Refute [nine_cells] by naming a cell that is missing. *)
Ltac missing_cell Hn :=
  first
    [ destruct (Hn 0 0 ltac:(lia) ltac:(lia)) as [? Hx]; discriminate Hx
    | destruct (Hn 0 1 ltac:(lia) ltac:(lia)) as [? Hx]; discriminate Hx
    | destruct (Hn 0 2 ltac:(lia) ltac:(lia)) as [? Hx]; discriminate Hx
    | destruct (Hn 1 0 ltac:(lia) ltac:(lia)) as [? Hx]; discriminate Hx
    | destruct (Hn 1 1 ltac:(lia) ltac:(lia)) as [? Hx]; discriminate Hx
    | destruct (Hn 1 2 ltac:(lia) ltac:(lia)) as [? Hx]; discriminate Hx
    | destruct (Hn 2 0 ltac:(lia) ltac:(lia)) as [? Hx]; discriminate Hx
    | destruct (Hn 2 1 ltac:(lia) ltac:(lia)) as [? Hx]; discriminate Hx
    | destruct (Hn 2 2 ltac:(lia) ltac:(lia)) as [? Hx]; discriminate Hx ].

(** X16. [initialise_board] needs the nine cells and touches nothing else.
    On a board that lacks a row or a cell of the top left 3x3 it raises
    [IndexError]; on any other board, also a larger one, it succeeds, makes
    those nine cells [' '], and keeps the number of rows and every other
    cell. *)
Theorem initialise_board_bounds (b : board) :
  (nine_cells b /\
   exists b', initialise_board b = Ret b' /\ length b' = length b /\
     (forall r c, r < 3 -> c < 3 -> get_cell b' r c = Ret EMPTY) /\
     (forall r c, ~ (r < 3 /\ c < 3) -> get_cell b' r c = get_cell b r c)) \/
  (~ nine_cells b /\ initialise_board b = Raise IndexError).
Proof.
  destruct b as [|r0 [|r1 [|r2 rest]]];
    [right; split; [intros Hn; missing_cell Hn | reflexivity]
    |destruct r0 as [|x0 [|y0 [|z0 t0]]];
       (right; split; [intros Hn; missing_cell Hn | reflexivity])
    |destruct r0 as [|x0 [|y0 [|z0 t0]]]; destruct r1 as [|x1 [|y1 [|z1 t1]]];
       (right; split; [intros Hn; missing_cell Hn | reflexivity])
    |].
  destruct r0 as [|x0 [|y0 [|z0 t0]]]; destruct r1 as [|x1 [|y1 [|z1 t1]]];
    destruct r2 as [|x2 [|y2 [|z2 t2]]];
    try (right; split; [intros Hn; missing_cell Hn | reflexivity]).
  left. split.
  - intros r c Hr Hc.
    destruct r as [|[|[|r]]]; [| | |lia];
      (destruct c as [|[|[|c]]]; [| | |lia]); eexists; reflexivity.
  - eexists. split; [reflexivity|]. split; [reflexivity|]. split.
    + intros r c Hr Hc.
      destruct r as [|[|[|r]]]; [| | |lia];
        (destruct c as [|[|[|c]]]; [| | |lia]); reflexivity.
    + intros r c Hout.
      destruct r as [|[|[|r]]]; try reflexivity;
        (destruct c as [|[|[|c]]]; try reflexivity; lia).
Qed.

Example larger_board_is_reset_in_part :
  initialise_board [["a"; "b"; "c"; "d"]; ["e"; "f"; "g"]; ["h"; "i"; "j"]; ["k"]]
  = Ret [[" "; " "; " "; "d"]; [" "; " "; " "]; [" "; " "; " "]; ["k"]].
Proof. reflexivity. Qed.
